(** * Request handling and response sanitisation of the Financial Engine API

    A shallow embedding of [financial_engine_py/src/server.py]: the payload
    normaliser, the recursive NaN/Infinity sanitiser ([clean_nan], [has_nan],
    [deep_clean]) and the [calculate] handler with its error envelopes.

    Python values are an inductive type: a [dict] with string keys is a
    [gmap string pyval], a [list] is a [list pyval], a [float] is an IEEE
    binary64 number (Rocq's primitive [float]), an [int] is a [Z]. *)

From Stdlib Require Import ZArith Floats.
From stdpp Require Import base option list strings gmap fin_maps.

Set Warnings "-register-all".
Local Open Scope string_scope.

(** ** Python values *)

(** The values the handler sees: what a JSON body parses to, what
    [model_dump] returns.  [PObj r] is an object of any other type (a
    [Decimal], a [datetime], an enum member, ...), known only by the text
    [r] that [str(obj)] returns. *)
Unset Elimination Schemes.
Inductive pyval : Type :=
| PNone
| PBool (b : bool)
| PInt (z : Z)
| PFloat (f : float)
| PStr (s : string)
| PList (l : list pyval)
| PDict (d : gmap string pyval)
| PObj (r : string).
Set Elimination Schemes.

(** [math.isnan(obj) or math.isinf(obj)] on a float. *)
Definition nonfinite (f : float) : bool :=
  PrimFloat.is_nan f || PrimFloat.is_infinity f.

(** Number of nodes of a value; the measure behind induction on values and
    the bound on the recursion depth of the traversals. *)
Fixpoint size (obj : pyval) : nat :=
  match obj with
  | PList l => S (foldr (λ v acc, size v + acc) 0 l)
  | PDict d => S (map_fold (λ _ v acc, size v + acc) 0 d)
  | _ => 1
  end.

(** [obj is None] *)
Definition is_none (obj : pyval) : bool :=
  match obj with PNone => true | _ => false end.

(** [obj == s] for a string literal [s]: only a [str] can be equal to it. *)
Definition eq_str (obj : pyval) (s : string) : bool :=
  match obj with PStr s' => bool_decide (s' = s) | _ => false end.

(** ** The sanitiser (server.py, lines 94-154) *)

(** [clean_nan]: lines 94-103. *)
Fixpoint clean_nan (obj : pyval) : pyval :=
  match obj with
  | PDict d => PDict (clean_nan <$> d)
  | PList l => PList (clean_nan <$> l)
  | PFloat f => if nonfinite f then PNone else PFloat f
  | _ => obj
  end.

(** [has_nan]: lines 106-113.  [any(...)] over the values of a dict is a
    fold of [||] over the map. *)
Fixpoint has_nan (obj : pyval) : bool :=
  match obj with
  | PFloat f => nonfinite f
  | PDict d => map_fold (λ _ v acc, has_nan v || acc) false d
  | PList l => existsb has_nan l
  | _ => false
  end.

(** [deep_clean]: lines 138-152.  The comprehensions test the value
    ([v is not None]) before the recursive call; [omap] is that filter
    fused with the map. *)
Fixpoint deep_clean (obj : pyval) : pyval :=
  match obj with
  | PDict d =>
      PDict (omap (λ v, if is_none v then None else Some (deep_clean v)) d)
  | PList l =>
      PList (omap (λ v, if is_none v then None else Some (deep_clean v)) l)
  | PInt _ | PStr _ | PBool _ => obj
  | PFloat f => if nonfinite f then PNone else PFloat f
  | PNone => PNone
  | PObj r => PStr r
  end.

(** ** What the output is measured against *)

(** A non-finite float occurs in the value, at some depth. *)
Inductive nonfinite_inside : pyval → Prop :=
| nf_here f : nonfinite f = true → nonfinite_inside (PFloat f)
| nf_list l v : v ∈ l → nonfinite_inside v → nonfinite_inside (PList l)
| nf_dict d k v : d !! k = Some v → nonfinite_inside v → nonfinite_inside (PDict d).

(** An object of an unrecognised type occurs in the value, at some depth. *)
Fixpoint has_obj (obj : pyval) : bool :=
  match obj with
  | PObj _ => true
  | PList l => existsb has_obj l
  | PDict d => map_fold (λ _ v acc, has_obj v || acc) false d
  | _ => false
  end.

(** The spec's [is_json_encodable] (section 3, JsonSafeTree): the value is
    built from mappings, sequences, null, booleans, integers, strings and
    finite floats only, so that it has a JSON text. *)
Fixpoint json_safe (obj : pyval) : bool :=
  match obj with
  | PFloat f => negb (nonfinite f)
  | PList l => forallb json_safe l
  | PDict d => map_fold (λ _ v acc, json_safe v && acc) true d
  | PObj _ => false
  | _ => true
  end.

(** The finite scalars of the spec's "scalar preservation". *)
Definition finite_scalar (obj : pyval) : bool :=
  match obj with
  | PNone | PBool _ | PInt _ | PStr _ => true
  | PFloat f => negb (nonfinite f)
  | _ => false
  end.

(** The primary sanitize pass as section 4.4 (step 2) words it, one rule a
    sentence: a relation between a tree and its sanitised tree. *)
Inductive sanitize_spec : pyval → pyval → Prop :=
| san_mapping d d' :
    (∀ k, option_Forall2 sanitize_spec (d !! k) (d' !! k)) →
    sanitize_spec (PDict d) (PDict d')
| san_sequence l l' :
    Forall2 sanitize_spec l l' →
    sanitize_spec (PList l) (PList l')
| san_nonfinite f :
    nonfinite f = true → sanitize_spec (PFloat f) PNone
| san_finite f :
    nonfinite f = false → sanitize_spec (PFloat f) (PFloat f)
| san_int z : sanitize_spec (PInt z) (PInt z)
| san_str s : sanitize_spec (PStr s) (PStr s)
| san_bool b : sanitize_spec (PBool b) (PBool b)
| san_null : sanitize_spec PNone PNone
| san_other r : sanitize_spec (PObj r) (PObj r).

(** The deep-clean fallback as section 4.4 (step 4) words it. *)
Inductive deep_clean_spec : pyval → pyval → Prop :=
| dcs_mapping d d' :
    (∀ k v, d !! k = Some v → is_none v = false →
            ∃ v', d' !! k = Some v' ∧ deep_clean_spec v v') →
    (∀ k, (d !! k = None ∨ d !! k = Some PNone) → d' !! k = None) →
    deep_clean_spec (PDict d) (PDict d')
| dcs_sequence l l' :
    Forall2 deep_clean_spec (filter (λ v, negb (is_none v)) l) l' →
    deep_clean_spec (PList l) (PList l')
| dcs_int z : deep_clean_spec (PInt z) (PInt z)
| dcs_str s : deep_clean_spec (PStr s) (PStr s)
| dcs_bool b : deep_clean_spec (PBool b) (PBool b)
| dcs_finite f :
    nonfinite f = false → deep_clean_spec (PFloat f) (PFloat f)
| dcs_nonfinite f :
    nonfinite f = true → deep_clean_spec (PFloat f) PNone
| dcs_null : deep_clean_spec PNone PNone
| dcs_other r : deep_clean_spec (PObj r) (PStr r).

(** ** Exceptions *)

(** Where an exception stands in the class hierarchy, as far as the
    handlers' [except] clauses tell classes apart. *)
Inductive exc_class := ValueErrorC | TypeErrorC | OtherC.

(** pydantic's [ValidationError] (a subclass of [ValueError]) carries its
    message and the list [e.errors()]; any other [Exception] has a class,
    a type name and a message. *)
Inductive exn :=
| ValidationError (msg : string) (errors : list pyval)
| PyException (cls : exc_class) (name msg : string).

(** [str(e)] *)
Definition exn_str (e : exn) : string :=
  match e with ValidationError m _ => m | PyException _ _ m => m end.

(** [type(e).__name__] *)
Definition exn_type_name (e : exn) : string :=
  match e with
  | ValidationError _ _ => "ValidationError"
  | PyException _ n _ => n
  end.

(** [isinstance(e, ValidationError)] *)
Definition is_validation_error (e : exn) : bool :=
  match e with ValidationError _ _ => true | _ => false end.

(** [isinstance(e, (ValueError, TypeError))] *)
Definition is_value_or_type_error (e : exn) : bool :=
  match e with
  | ValidationError _ _ => true
  | PyException ValueErrorC _ _ | PyException TypeErrorC _ _ => true
  | PyException OtherC _ _ => false
  end.

Definition TypeError (msg : string) : exn := PyException TypeErrorC "TypeError" msg.
Definition AttributeError (msg : string) : exn := PyException OtherC "AttributeError" msg.
Definition OverflowError (msg : string) : exn := PyException OtherC "OverflowError" msg.
Definition RecursionError : exn :=
  PyException OtherC "RecursionError" "maximum recursion depth exceeded".

(** A computation that returns or raises. *)
Inductive outcome (A : Type) : Type :=
| Ok (a : A)
| Raise (e : exn).
Arguments Ok {A} a.
Arguments Raise {A} e.

#[global] Instance outcome_ret : MRet outcome := λ A a, Ok a.
#[global] Instance outcome_bind : MBind outcome := λ A B k m,
  match m with Ok a => k a | Raise e => Raise e end.
#[global] Instance outcome_fmap : FMap outcome := λ A B f m,
  match m with Ok a => Ok (f a) | Raise e => Raise e end.

(** ** The operations of Python that can raise *)

(** [isinstance(obj, dict)], [isinstance(obj, list)],
    [isinstance(obj, float)], [isinstance(obj, (int, str, bool))] *)
Definition isinstance_dict (obj : pyval) : bool :=
  match obj with PDict _ => true | _ => false end.
Definition isinstance_list (obj : pyval) : bool :=
  match obj with PList _ => true | _ => false end.
Definition isinstance_float (obj : pyval) : bool :=
  match obj with PFloat _ => true | _ => false end.
Definition isinstance_int_str_bool (obj : pyval) : bool :=
  match obj with PInt _ | PStr _ | PBool _ => true | _ => false end.

(** The name of the class of a value, as the interpreter's messages cite
    it.  The class of an object of another type is not part of the model. *)
Definition type_name (obj : pyval) : option string :=
  match obj with
  | PNone => Some "NoneType"
  | PBool _ => Some "bool"
  | PInt _ => Some "int"
  | PFloat _ => Some "float"
  | PStr _ => Some "str"
  | PList _ => Some "list"
  | PDict _ => Some "dict"
  | PObj _ => None
  end.

(** ['list' object] and the like: how a message names the value.  For an
    object of another type, whose class the model does not hold, the
    message is left without the name. *)
Definition cited (obj : pyval) : string :=
  match type_name obj with
  | Some n => "'" +:+ n +:+ "' object"
  | None => "object"
  end.

(** The [AttributeError] of a method the value does not have. *)
Definition no_attribute (obj : pyval) (attr : string) : exn :=
  AttributeError (cited obj +:+ " has no attribute '" +:+ attr +:+ "'").

(** [obj.items()]: only a dict has the method. *)
Definition py_items (obj : pyval) : outcome (list (string * pyval)) :=
  match obj with
  | PDict d => Ok (map_to_list d)
  | _ => Raise (no_attribute obj "items")
  end.

(** [obj.keys()] *)
Definition py_keys (obj : pyval) : outcome (list string) :=
  match obj with
  | PDict d => Ok ((map_to_list d).*1)
  | _ => Raise (no_attribute obj "keys")
  end.

(** [for item in obj]: a list yields its elements, a dict its keys, a
    string its characters; nothing else here is iterable. *)
Definition py_iter (obj : pyval) : outcome (list pyval) :=
  match obj with
  | PList l => Ok l
  | PDict d => Ok (PStr <$> (map_to_list d).*1)
  | PStr s => Ok ((λ c, PStr (String c EmptyString)) <$> String.list_ascii_of_string s)
  | _ => Raise (TypeError (cited obj +:+ " is not iterable"))
  end.

(** [math.isnan(obj)] and [math.isinf(obj)] convert their argument to a C
    double first: an int or a bool that converts is finite, an int too
    large for a double overflows, a non-number is a type error. *)
Definition fits_double (z : Z) : bool := (Z.abs z <? 2 ^ 1024 - 2 ^ 970)%Z.

Definition math_isnan (obj : pyval) : outcome bool :=
  match obj with
  | PFloat f => Ok (PrimFloat.is_nan f)
  | PBool _ => Ok false
  | PInt z =>
      if fits_double z then Ok false
      else Raise (OverflowError "int too large to convert to float")
  | _ => Raise (TypeError ("must be real number, not " +:+ default "object" (type_name obj)))
  end.

Definition math_isinf (obj : pyval) : outcome bool :=
  match obj with
  | PFloat f => Ok (PrimFloat.is_infinity f)
  | PBool _ => Ok false
  | PInt z =>
      if fits_double z then Ok false
      else Raise (OverflowError "int too large to convert to float")
  | _ => Raise (TypeError ("must be real number, not " +:+ default "object" (type_name obj)))
  end.

(** [str(obj)] in the last branch of [deep_clean]: the text of an object of
    another type.  The recognised types never reach that branch. *)
Definition str_other (obj : pyval) : string :=
  match obj with PObj r => r | PStr s => s | _ => "" end.

(** The dict built from pairs inserted in order: a later pair replaces an
    earlier one with the same key. *)
Definition dict_of (kvs : list (string * pyval)) : gmap string pyval :=
  list_to_map (reverse kvs).

(** [{k: f(v) for k, v in items if keep(v)}]: the test is pure, so the
    entries are filtered first and [f] runs on the kept ones in order. *)
Definition dict_comp (f : pyval → outcome pyval) (keep : pyval → bool)
    (items : list (string * pyval)) : outcome pyval :=
  kvs ← mapM (λ kv, v' ← f kv.2; mret (kv.1, v')) (filter (λ kv, keep kv.2) items);
  mret (PDict (dict_of kvs)).

(** [[f(item) for item in xs if keep(item)]] *)
Definition list_comp (f : pyval → outcome pyval) (keep : pyval → bool)
    (xs : list pyval) : outcome pyval :=
  ys ← mapM f (filter keep xs);
  mret (PList ys).

(** ** The sanitiser, statement by statement *)

(** The body of [clean_nan] with its recursive calls going to [self]:
    every method call and every [math] call is one that can raise. *)
Definition clean_nan_body (self : pyval → outcome pyval) (obj : pyval) : outcome pyval :=
  if isinstance_dict obj then
    items ← py_items obj;
    dict_comp self (λ _, true) items
  else if isinstance_list obj then
    xs ← py_iter obj;
    list_comp self (λ _, true) xs
  else if isinstance_float obj then
    nan ← math_isnan obj;
    bad ← (if nan : bool then mret true else math_isinf obj);
    if bad : bool then mret PNone else mret obj
  else mret obj.

(** The body of [deep_clean], likewise. *)
Definition deep_clean_body (self : pyval → outcome pyval) (obj : pyval) : outcome pyval :=
  if isinstance_dict obj then
    items ← py_items obj;
    dict_comp self (λ v, negb (is_none v)) items
  else if isinstance_list obj then
    xs ← py_iter obj;
    list_comp self (λ v, negb (is_none v)) xs
  else if isinstance_int_str_bool obj then mret obj
  else if isinstance_float obj then
    nan ← math_isnan obj;
    bad ← (if nan : bool then mret true else math_isinf obj);
    if bad : bool then mret PNone else mret obj
  else if is_none obj then mret PNone
  else mret (PStr (str_other obj)).

(** The recursive functions: [fuel] bounds the depth of the calls, and a
    call with none left is Python's [RecursionError]. *)
Fixpoint clean_nan_run (fuel : nat) (obj : pyval) : outcome pyval :=
  match fuel with
  | 0 => Raise RecursionError
  | S n => clean_nan_body (clean_nan_run n) obj
  end.

Fixpoint deep_clean_run (fuel : nat) (obj : pyval) : outcome pyval :=
  match fuel with
  | 0 => Raise RecursionError
  | S n => deep_clean_body (deep_clean_run n) obj
  end.

(** ** The payload normaliser (server.py, line 80) *)

(** [v is not None and v != "undefined"] *)
Definition kept (v : pyval) : bool :=
  negb (is_none v) && negb (eq_str v "undefined").

(** [{k: v for k, v in payload.items() if v is not None and v != "undefined"}] *)
Definition normalize (payload : gmap string pyval) : gmap string pyval :=
  filter (λ kv, kept kv.2) payload.

(** The same line with [payload.items()] as the call it is. *)
Definition normalize_exc (payload : pyval) : outcome pyval :=
  items ← py_items payload;
  mret (PDict (dict_of (filter (λ kv, kept kv.2) items))).

(** ** The [calculate] handler (server.py, lines 74-176) *)

(** The calls the [try] block of the handler makes to code outside
    [server.py], in the order it makes them. *)
Inductive call :=
| CallFinancialInputs
| CallEngine
| CallModelDumpJson
| CallModelDump
| CallJsonDumps.

(** What a run of the handler leaves behind: the calls it made and the
    exceptions its inner [except] clauses caught, in order. *)
Inductive event :=
| Called (c : call)
| Caught (e : exn).

(** A step of the handler: the events so far, and a value or the exception
    that ended it. *)
Definition handler (A : Type) : Type := (list event * outcome A)%type.

#[global] Instance handler_ret : MRet handler := λ A a, ([], Ok a).
#[global] Instance handler_bind : MBind handler := λ A B k m,
  match m with
  | (t, Ok a) => let '(t', r) := k a in ((t ++ t')%list, r)
  | (t, Raise e) => (t, Raise e)
  end.

(** A call to a collaborator, recorded. *)
Definition invoke {A} (c : call) (r : outcome A) : handler A := ([Called c], r).

(** A step of the language itself. *)
Definition lift {A} (r : outcome A) : handler A := ([], r).

(** [try: m  except <classes> as e: h e] *)
Definition try_except {A} (m : handler A) (classes : exn → bool)
    (h : exn → handler A) : handler A :=
  match m with
  | (t, Raise e) =>
      if classes e then let '(t', r) := h e in ((t ++ Caught e :: t')%list, r)
      else (t, Raise e)
  | _ => m
  end.

(** The exception [e] was raised in the run [m]: it ended the run, or an
    inner [except] clause caught it. *)
Definition raised {A} (m : handler A) (e : exn) : Prop :=
  m.2 = Raise e ∨ Caught e ∈ m.1.

(** What the handler hands back: a status, a JSON body and the headers it
    sets itself (the CORS middleware may add more). *)
Record response := Response {
  status : Z;
  content : pyval;
  headers : gmap string string
}.

(** [headers={"Access-Control-Allow-Origin": "*"}] *)
Definition cors_headers : gmap string string :=
  {[ "Access-Control-Allow-Origin" := "*" ]}.

(** The body of the 422: lines 162-166. *)
Definition validation_body (msg : string) (errors : list pyval) : pyval :=
  PDict {[ "error" := PStr "ValidationError";
           "message" := PStr msg;
           "details" := PList errors ]}.

(** [global_exception_handler]: lines 49-58.  Its body is three strings,
    which every JSON encoder accepts. *)
Definition global_exception_handler (exc : exn) : response :=
  Response 500
    (PDict {[ "error" := PStr "InternalError";
              "message" := PStr (exn_str exc);
              "type" := PStr (exn_type_name exc) ]})
    cors_headers.

Section Calculate.

(** The collaborators, declared in [financial_engine] and in the libraries:
    the typed input and result, the validating constructor
    [FinancialInputs] on the keyword arguments [clean_payload],
    [_engine.calculate], the two
    serialisation modes of the result, [json.dumps], the attribute reads
    of the two log lines, and [traceback.format_exc()]. *)
Variables Inputs Result : Type.
Variable FinancialInputs : gmap string pyval → outcome Inputs.
Variable engine_calculate : Inputs → outcome Result.
Variable model_dump_json : Result → outcome pyval.
Variable model_dump : Result → outcome pyval.
Variable json_dumps : pyval → outcome string.
Variable inputs_log : Inputs → outcome string.
Variable result_log : Result → outcome string.
Variable format_exc : exn → string.

(** [JSONResponse(content=...)] writes the body as JSON text when the
    response is built, with [allow_nan=False]: it raises on a body that has
    no JSON text. *)
Variable render : pyval → outcome string.

(** Lines 116-120: the result is serialised in JSON mode, and in the
    default mode if that fails. *)
Definition serialize (result : Result) : handler pyval :=
  try_except
    (invoke CallModelDumpJson (model_dump_json result))
    (λ _, true)
    (λ _, invoke CallModelDump (model_dump result)).

(** Lines 122-154: the primary pass, the verification pass, the
    encodability check and the deep-clean fallback. *)
Definition sanitize (dumped : pyval) : handler pyval :=
  let cleaned := clean_nan dumped in
  let cleaned := if has_nan cleaned then clean_nan cleaned else cleaned in
  try_except
    (_ ← invoke CallJsonDumps (json_dumps cleaned);
     _ ← lift (py_keys cleaned);
     mret cleaned)
    is_value_or_type_error
    (λ _, mret (deep_clean cleaned)).

(** The [try] block of [calculate]: lines 77-156. *)
Definition calculate_try (payload : gmap string pyval) : handler pyval :=
  let clean_payload := normalize payload in
  inputs ← invoke CallFinancialInputs (FinancialInputs clean_payload);
  _ ← lift (inputs_log inputs);
  result ← invoke CallEngine (engine_calculate inputs);
  _ ← lift (result_log result);
  dumped ← serialize result;
  sanitize dumped.

(** [calculate]: the [try] block and its two [except] clauses.  The 422
    is built from [e.errors()] as it comes: if [JSONResponse] cannot write
    it, the exception is raised inside the [except] clause, leaves
    [calculate], and the request is answered by the handler the
    application registers for [Exception] (line 49).  The body of the 500
    is three strings, which [JSONResponse] always writes. *)
Definition calculate (payload : gmap string pyval) : list event * response :=
  match calculate_try payload with
  | (t, Ok cleaned) => (t, Response 200 cleaned ∅)
  | (t, Raise ((ValidationError _ errors) as e)) =>
      match render (validation_body (exn_str e) errors) with
      | Ok _ =>
          (t, Response 422 (validation_body (exn_str e) errors) cors_headers)
      | Raise e' => (t, global_exception_handler e')
      end
  | (t, Raise e) =>
      (t, Response 500
            (PDict {[ "error" := PStr "InternalError";
                      "message" := PStr (exn_str e);
                      "traceback" := PStr (format_exc e) ]})
            cors_headers)
  end.

End Calculate.

(** ** A validator and an engine to run the handler on *)

(** Modelled from the spec: the Input Validator of section 4.2, the class
    [FinancialInputs] that [server.py] imports from [financial_engine].
    It reports one entry per missing required field, the field path under
    ["loc"]. *)
Definition missing_entry (field : string) : pyval :=
  PDict {[ "type" := PStr "missing";
           "loc" := PList [PStr field];
           "msg" := PStr "Field required" ]}.

Definition validate_required (required : list string)
    (payload : gmap string pyval) : outcome (gmap string pyval) :=
  match filter (λ f, negb (bool_decide (is_Some (payload !! f)))) required with
  | [] => Ok payload
  | missing =>
      Raise (ValidationError "validation error for FinancialInputs"
               (missing_entry <$> missing))
  end.

(** An entry of [details] names the field [field]. *)
Definition names_field (field : string) (entry : pyval) : Prop :=
  ∃ d, entry = PDict d ∧ d !! "loc" = Some (PList [PStr field]).

(** The payloads of the spec's scenarios 1 and 2 (section 8), and one with
    nulls below the top level. *)
Definition scenario1 : gmap string pyval :=
  {[ "kWp" := PInt 100; "modo" := PStr "venta_total";
     "capex" := PInt 50000; "notes" := PNone ]}.

Definition scenario2 : gmap string pyval :=
  {[ "modo" := PStr "venta_total" ]}.

Definition nested_payload : gmap string pyval :=
  {[ "kWp" := PInt 100;
     "extras" := PDict {[ "a" := PNone; "b" := PStr "undefined" ]};
     "series" := PList [PNone; PStr "undefined"; PInt 1];
     "notes" := PNone;
     "ref" := PStr "undefined" ]}.

(** A result tree with a NaN rate of return (scenario 3), an engine that
    returns it and one that fails (scenario 4), and a [json.dumps] that
    refuses what has no JSON text. *)
Definition nan_result : pyval :=
  PDict {[ "kpis" := PDict {[ "van" := PFloat 1250.5; "tir" := PFloat nan ]};
           "flows" := PList [PFloat infinity; PFloat neg_infinity; PInt 0] ]}.

Definition demo_validator : gmap string pyval → outcome (gmap string pyval) :=
  validate_required ["kWp"; "modo"].

Definition demo_engine (inputs : gmap string pyval) : outcome pyval :=
  Ok nan_result.

Definition failing_engine (inputs : gmap string pyval) : outcome pyval :=
  Raise (PyException OtherC "ZeroDivisionError" "float division by zero").

Definition demo_dump (result : pyval) : outcome pyval := Ok result.

(** A result that holds a date object and the engine that returns it; a
    JSON-mode dump that fails on it, so that the default mode hands the
    date object on to [json.dumps], which refuses it. *)
Definition dated_result : pyval :=
  PDict {[ "fecha" := PObj "2024-01-31"; "van" := PFloat 1250.5;
           "tir" := PFloat nan ]}.

Definition dated_engine (inputs : gmap string pyval) : outcome pyval :=
  Ok dated_result.

Definition SerializationError : exn :=
  PyException OtherC "PydanticSerializationError" "Unable to serialize unknown type".

Definition failing_dump_json (result : pyval) : outcome pyval :=
  Raise SerializationError.

Definition demo_json_dumps (obj : pyval) : outcome string :=
  if has_obj obj then Raise (TypeError "Object is not JSON serializable")
  else Ok "...".

Definition demo_log {A} (x : A) : outcome string := Ok "".

(** A [JSONResponse] rendering that refuses what has no JSON text: a
    non-finite float with a [ValueError], an object of another type with a
    [TypeError]. *)
Definition strict_render (content : pyval) : outcome string :=
  if has_nan content
  then Raise (PyException ValueErrorC "ValueError"
                "Out of range float values are not JSON compliant")
  else if has_obj content
  then Raise (TypeError "Object is not JSON serializable")
  else Ok "...".

(** Modelled from the spec: the Input Validator of section 4.2 as pydantic
    builds its report, the class [FinancialInputs] that [server.py] imports
    from [financial_engine].  The entry of a missing field carries, under
    ["input"], the keyword arguments the constructor was given. *)
Definition missing_entry_with_input (payload : gmap string pyval)
    (field : string) : pyval :=
  PDict {[ "type" := PStr "missing";
           "loc" := PList [PStr field];
           "msg" := PStr "Field required";
           "input" := PDict payload ]}.

Definition pydantic_validator (required : list string)
    (payload : gmap string pyval) : outcome (gmap string pyval) :=
  match filter (λ f, negb (bool_decide (is_Some (payload !! f)))) required with
  | [] => Ok payload
  | missing =>
      Raise (ValidationError "validation error for FinancialInputs"
               (missing_entry_with_input payload <$> missing))
  end.

(** A payload without [kWp] and with a NaN in another field: the body
    [{"modo": "venta_total", "capex": NaN}]. *)
Definition nan_payload : gmap string pyval :=
  {[ "modo" := PStr "venta_total"; "capex" := PFloat nan ]}.

Definition demo_format_exc (e : exn) : string :=
  "Traceback (most recent call last): ... " +:+ exn_type_name e.

(** ** Environment and CORS configuration (server.py, lines 20-47) *)

(** The truth value of an object in a condition: [None], [False], zero, the
    empty string and the empty containers are false. *)
Definition truthy (obj : pyval) : bool :=
  match obj with
  | PNone => false
  | PBool b => b
  | PInt z => negb (z =? 0)%Z
  | PFloat f => negb (PrimFloat.eqb f 0)
  | PStr s => negb (bool_decide (s = ""))
  | PList l => match l with [] => false | _ => true end
  | PDict d => match map_to_list d with [] => false | _ => true end
  | PObj _ => true
  end.

(** [a or b]: the first operand if it is true, the second otherwise. *)
Definition py_or (a b : pyval) : pyval := if truthy a then a else b.

(** [os.getenv(name)]: the value of the variable, or [None]. *)
Definition getenv (env : gmap string string) (name : string) : pyval :=
  match env !! name with Some s => PStr s | None => PNone end.

(** [is_production]: line 21. *)
Definition is_production (env : gmap string string) : pyval :=
  py_or (PBool (eq_str (getenv env "ENVIRONMENT") "production"))
    (py_or (getenv env "RENDER")
       (py_or (getenv env "RAILWAY_ENVIRONMENT") (getenv env "K_SERVICE"))).

(** [allowed_origins] and [allow_origin_regex]: lines 24-34. *)
Definition allowed_origins (env : gmap string string) : list string :=
  if truthy (is_production env) then ["https://cotizador-voltaic.vercel.app"]
  else ["http://localhost:3000"; "http://127.0.0.1:3000"].

Definition allow_origin_regex (env : gmap string string) : option string :=
  if truthy (is_production env) then Some "https://.*\.vercel\.app$"
  else None.

(** The arguments of [app.add_middleware(CORSMiddleware, ...)]: lines 39-47. *)
Record cors_config := CorsConfig {
  allow_origins : list string;
  allow_origin_pattern : option string;
  allow_credentials : bool;
  allow_methods : list string;
  allow_headers : list string;
  expose_headers : list string
}.

Definition cors_middleware (env : gmap string string) : cors_config :=
  CorsConfig (allowed_origins env) (allow_origin_regex env) false
    ["GET"; "POST"; "OPTIONS"] ["*"] ["*"].

(** [health] and [options_calculate]: lines 63-71. *)
Definition health : pyval := PDict {[ "status" := PStr "ok" ]}.
Definition options_calculate : pyval := PDict {[ "status" := PStr "ok" ]}.

(** ** [has_nan], statement by statement *)

(** [obj.values()]: only a dict has the method. *)
Definition py_values (obj : pyval) : outcome (list pyval) :=
  match obj with
  | PDict d => Ok ((map_to_list d).*2)
  | _ => Raise (no_attribute obj "values")
  end.

(** [any(f(x) for x in xs)]: the generator is consumed up to the first
    true value. *)
Definition py_any (f : pyval → outcome bool) : list pyval → outcome bool :=
  fix go xs :=
    match xs with
    | [] => Ok false
    | x :: rest => b ← f x; if b : bool then Ok true else go rest
    end.

(** The body of [has_nan] (lines 106-113) with its recursive calls going
    to [self]. *)
Definition has_nan_body (self : pyval → outcome bool) (obj : pyval) : outcome bool :=
  found ← (if isinstance_float obj
           then nan ← math_isnan obj;
                if nan : bool then mret true else math_isinf obj
           else mret false);
  if found : bool then mret true
  else if isinstance_dict obj then
    vs ← py_values obj;
    py_any self vs
  else if isinstance_list obj then
    xs ← py_iter obj;
    py_any self xs
  else mret false.

Fixpoint has_nan_run (fuel : nat) (obj : pyval) : outcome bool :=
  match fuel with
  | 0 => Raise RecursionError
  | S n => has_nan_body (has_nan_run n) obj
  end.

(** ** Measures for the further properties *)

(** A list element or a dict value of the tree, at some depth, is null. *)
Fixpoint has_null_entry (obj : pyval) : bool :=
  match obj with
  | PList l => existsb (λ v, is_none v || has_null_entry v) l
  | PDict d => map_fold (λ _ v acc, (is_none v || has_null_entry v) || acc) false d
  | _ => false
  end.

(** The value is a NaN or an infinity. *)
Definition nonfinite_float (obj : pyval) : bool :=
  match obj with PFloat f => nonfinite f | _ => false end.

(** How deep the calls of a traversal nest on a value: one call for the
    value itself, and below it the deepest of the calls for its elements. *)
Fixpoint call_depth (obj : pyval) : nat :=
  match obj with
  | PList l => S (foldr (λ v acc, call_depth v `max` acc) 0 l)
  | PDict d => S (map_fold (λ _ v acc, call_depth v `max` acc) 0 d)
  | _ => 1
  end.

(** The environment puts the service in production mode: [ENVIRONMENT] is
    exactly ["production"], or one of the platform variables is set to a
    non-empty string. *)
Definition production_env (env : gmap string string) : Prop :=
  env !! "ENVIRONMENT" = Some "production" ∨
  ∃ name s, name ∈ ["RENDER"; "RAILWAY_ENVIRONMENT"; "K_SERVICE"] ∧
            env !! name = Some s ∧ s ≠ "".

(** The collaborator calls of a run, in order. *)
Definition calls (t : list event) : list call :=
  omap (λ ev, match ev with Called c => Some c | Caught _ => None end) t.

(** An engine that fails with a [ValidationError] of its own, a dump that
    is a list, and environments for the configuration. *)
Definition validating_engine (inputs : gmap string pyval) : outcome pyval :=
  Raise (ValidationError "validation error for Result"
           [missing_entry "kpis"]).

Definition list_dump (result : pyval) : outcome pyval :=
  Ok (PList [PFloat nan; PInt 1]).

Definition env_render_empty : gmap string string :=
  {[ "RENDER" := ""; "ENVIRONMENT" := "Production" ]}.

Definition env_cloud_run : gmap string string :=
  {[ "K_SERVICE" := "financial-engine" ]}.

(** * Proofs *)

(** ** Induction on values *)

Lemma size_list_elem (l : list pyval) (v : pyval) :
  v ∈ l → size v < size (PList l).
Proof.
  simpl. induction 1 as [v l|v w l _ IH]; simpl; lia.
Qed.

Lemma size_dict_elem (d : gmap string pyval) (k : string) (v : pyval) :
  d !! k = Some v → size v < size (PDict d).
Proof.
  intros Hk. simpl.
  rewrite (map_fold_delete_L _ _ k v d); [lia| |done].
  intros; lia.
Qed.

(** The induction principle of [pyval]: the elements of a list and the
    values of a dict satisfy the predicate. *)
Lemma pyval_ind (P : pyval → Prop) :
  P PNone →
  (∀ b, P (PBool b)) →
  (∀ z, P (PInt z)) →
  (∀ f, P (PFloat f)) →
  (∀ s, P (PStr s)) →
  (∀ l, Forall P l → P (PList l)) →
  (∀ d, map_Forall (λ _, P) d → P (PDict d)) →
  (∀ r, P (PObj r)) →
  ∀ obj, P obj.
Proof.
  intros HN HB HI HF HS HL HD HO obj.
  remember (size obj) as n eqn:Hn. revert obj Hn.
  induction n as [n IH] using lt_wf_ind. intros obj ->.
  destruct obj as [| | | | |l|d|]; auto.
  - apply HL, Forall_forall. intros v Hv.
    eapply IH; [by apply size_list_elem|done].
  - apply HD. intros k v Hk.
    eapply IH; [by eapply size_dict_elem|done].
Qed.

(** ** Folds over the values of a dict *)

Lemma map_fold_orb {A} (g : A → bool) (d : gmap string A) :
  map_fold (λ _ v acc, g v || acc) false d = true ↔
  ∃ k v, d !! k = Some v ∧ g v = true.
Proof.
  apply (map_fold_weak_ind
           (λ r m, r = true ↔ ∃ k v, m !! k = Some v ∧ g v = true)).
  - split; [done|]. intros (k & v & H & _). by rewrite lookup_empty in H.
  - intros i x m r Hi IH. rewrite orb_true_iff, IH. split.
    + intros [Hx | (k & v & Hk & Hv)].
      * exists i, x. by rewrite lookup_insert_eq.
      * exists k, v. rewrite lookup_insert_ne; [done|]. intros ->. congruence.
    + intros (k & v & Hk & Hv). destruct (decide (i = k)) as [->|Hne].
      * rewrite lookup_insert_eq in Hk. left. congruence.
      * rewrite lookup_insert_ne in Hk by done. right. eauto.
Qed.

Lemma map_fold_orb_false {A} (g : A → bool) (d : gmap string A) :
  map_fold (λ _ v acc, g v || acc) false d = false ↔
  map_Forall (λ _ v, g v = false) d.
Proof.
  rewrite <- not_true_iff_false, map_fold_orb. split.
  - intros Hno k v Hk. apply not_true_iff_false. intros Hv. apply Hno. eauto.
  - intros Hall (k & v & Hk & Hv). specialize (Hall k v Hk). simpl in Hall. congruence.
Qed.

Lemma map_fold_andb {A} (g : A → bool) (d : gmap string A) :
  map_fold (λ _ v acc, g v && acc) true d = true ↔
  map_Forall (λ _ v, g v = true) d.
Proof.
  apply (map_fold_weak_ind
           (λ r m, r = true ↔ map_Forall (λ _ v, g v = true) m)).
  - split; [intros _; apply map_Forall_empty|done].
  - intros i x m r Hi IH.
    rewrite andb_true_iff, IH, map_Forall_insert by done. done.
Qed.

(** ** The sanitiser leaves no non-finite float *)

(** [has_nan] finds exactly the non-finite floats, at any depth. *)
Lemma has_nan_spec (obj : pyval) :
  has_nan obj = true ↔ nonfinite_inside obj.
Proof.
  induction obj as [| | |f| |l IH|d IH|] using pyval_ind; simpl;
    try (split; [done|inversion 1]).
  - split; [by constructor|by inversion 1].
  - rewrite existsb_exists. split.
    + intros (v & Hin & Hv). apply list_elem_of_In in Hin.
      rewrite Forall_forall in IH. econstructor; [done|]. by apply IH.
    + inversion 1 as [|l' v Hin Hv|]; subst. exists v.
      rewrite Forall_forall in IH. split; [by apply list_elem_of_In|by apply IH].
  - rewrite map_fold_orb. split.
    + intros (k & v & Hk & Hv). econstructor; [done|]. by apply (IH k v).
    + inversion 1 as [| |d' k v Hk Hv]; subst. exists k, v.
      split; [done|]. by apply (IH k v).
Qed.

Lemma has_nan_clean_nan (obj : pyval) : has_nan (clean_nan obj) = false.
Proof.
  induction obj as [| | |f| |l IH|d IH|] using pyval_ind; try done.
  - simpl. destruct (nonfinite f) eqn:Hf; simpl; [done|by rewrite Hf].
  - change (existsb has_nan (clean_nan <$> l) = false).
    induction IH as [|v l Hv _ IHl]; [done|].
    rewrite fmap_cons. simpl. rewrite Hv. exact IHl.
  - apply map_fold_orb_false. intros k v. rewrite lookup_fmap.
    destruct (d !! k) as [w|] eqn:Hk; simpl; [|done].
    intros [= <-]. by apply (IH k w).
Qed.

(** After [clean_nan] only an object of an unrecognised type can stand in
    the way of a JSON text. *)
Lemma json_safe_clean_nan (obj : pyval) :
  json_safe (clean_nan obj) = negb (has_obj obj).
Proof.
  induction obj as [| | |f| |l IH|d IH|] using pyval_ind; try done.
  - simpl. destruct (nonfinite f) eqn:Hf; simpl; [done|by rewrite Hf].
  - change (forallb json_safe (clean_nan <$> l) = negb (existsb has_obj l)).
    induction IH as [|v l Hv _ IHl]; [done|].
    rewrite fmap_cons. simpl. rewrite Hv, IHl. by rewrite negb_orb.
  - simpl. apply eq_true_iff_eq.
    rewrite map_fold_andb, negb_true_iff, map_fold_orb_false. split.
    + intros Hall k v Hk. specialize (Hall k (clean_nan v)).
      rewrite lookup_fmap, Hk in Hall. specialize (Hall eq_refl).
      simpl in Hall. rewrite (IH k v Hk) in Hall. by apply negb_true_iff.
    + intros Hall k v. rewrite lookup_fmap.
      destruct (d !! k) as [w|] eqn:Hk; simpl; [|done]. intros [= <-].
      rewrite (IH k w Hk). apply negb_true_iff. by apply (Hall k w).
Qed.

(** ** [clean_nan] against the spec's wording *)

Lemma sanitize_spec_clean_nan (obj : pyval) : sanitize_spec obj (clean_nan obj).
Proof.
  induction obj as [| | |f| |l IH|d IH|] using pyval_ind; simpl;
    try by constructor.
  - destruct (nonfinite f) eqn:Hf; by constructor.
  - constructor. induction IH; by constructor.
  - constructor. intros k. rewrite lookup_fmap.
    destruct (d !! k) as [w|] eqn:Hk; simpl; constructor. by apply (IH k w).
Qed.

Lemma sanitize_spec_functional (obj obj' : pyval) :
  sanitize_spec obj obj' → obj' = clean_nan obj.
Proof.
  revert obj'.
  induction obj as [| | |f| |l IH|d IH|] using pyval_ind;
    intros obj' H; inversion H as [d0 d' Hd|l0 l' Hl|f0 Hf|f0 Hf| | | | |]; subst;
    simpl; try done.
  - by rewrite Hf.
  - by rewrite Hf.
  - f_equal. clear H. revert l' Hl.
    induction IH as [|v l Hv _ IHl]; intros l' Hl; inversion Hl; subst; [done|].
    rewrite fmap_cons. f_equal; [by apply Hv|by apply IHl].
  - f_equal. apply map_eq. intros k. rewrite lookup_fmap.
    specialize (Hd k). destruct (d !! k) as [v|] eqn:Hk;
      inversion Hd as [v0 v' Hv|]; subst; simpl; [|done].
    f_equal. by apply (IH k v).
Qed.

(** ** [deep_clean] against the spec's wording *)

Lemma is_none_true (v : pyval) : is_none v = true → v = PNone.
Proof. by destruct v. Qed.

Lemma deep_clean_list (l : list pyval) :
  deep_clean (PList l) =
  PList (omap (λ v, if is_none v then None else Some (deep_clean v)) l).
Proof. done. Qed.

Lemma deep_clean_dict (d : gmap string pyval) :
  deep_clean (PDict d) =
  PDict (omap (λ v, if is_none v then None else Some (deep_clean v)) d).
Proof. done. Qed.

(** The list comprehension of [deep_clean]: filter on the value, then map. *)
Lemma deep_clean_list_filter (l : list pyval) :
  omap (λ v, if is_none v then None else Some (deep_clean v)) l =
  deep_clean <$> filter (λ v, negb (is_none v)) l.
Proof.
  induction l as [|v l IH]; [done|]. rewrite filter_cons. simpl.
  destruct (is_none v); simpl; [exact IH|f_equal; exact IH].
Qed.

Lemma deep_clean_spec_deep_clean (obj : pyval) :
  deep_clean_spec obj (deep_clean obj).
Proof.
  induction obj as [| | |f| |l IH|d IH|] using pyval_ind;
    try by constructor.
  - simpl. destruct (nonfinite f) eqn:Hf; by constructor.
  - rewrite deep_clean_list, deep_clean_list_filter. constructor.
    induction IH as [|v l Hv _ IHl]; [constructor|].
    rewrite filter_cons. destruct (is_none v); simpl; [done|by constructor].
  - rewrite deep_clean_dict. constructor.
    + intros k v Hk Hv. exists (deep_clean v).
      rewrite lookup_omap, Hk. simpl. rewrite Hv. split; [done|by apply (IH k v)].
    + intros k Hk. rewrite lookup_omap. by destruct Hk as [->| ->].
Qed.

Lemma deep_clean_spec_functional (obj obj' : pyval) :
  deep_clean_spec obj obj' → obj' = deep_clean obj.
Proof.
  revert obj'.
  induction obj as [| | |f| |l IH|d IH|] using pyval_ind;
    intros obj' H; inversion H as [d0 d' Hd1 Hd2|l0 l' Hl| | | |f0 Hf|f0 Hf| |]; subst;
    try done.
  - simpl. by rewrite Hf.
  - simpl. by rewrite Hf.
  - rewrite deep_clean_list, deep_clean_list_filter. f_equal. clear H. revert l' Hl.
    induction IH as [|v l Hv _ IHl]; intros l' Hl.
    + by inversion Hl.
    + rewrite filter_cons in Hl |- *.
      destruct (is_none v); simpl in *; [by apply IHl|].
      inversion Hl as [|v0 v' l0 l1 Hv' Hl']; subst.
      f_equal; [by apply Hv|exact (IHl _ Hl')].
  - rewrite deep_clean_dict. f_equal. apply map_eq. intros k. rewrite lookup_omap.
    destruct (d !! k) as [v|] eqn:Hk; simpl.
    + destruct (is_none v) eqn:Hv.
      * apply is_none_true in Hv as ->. apply Hd2. by right.
      * destruct (Hd1 k v Hk Hv) as (v' & -> & Hv'). f_equal. by apply (IH k v).
    + apply Hd2. by left.
Qed.

Lemma json_safe_deep_clean (obj : pyval) : json_safe (deep_clean obj) = true.
Proof.
  induction obj as [| | |f| |l IH|d IH|] using pyval_ind; try done.
  - simpl. destruct (nonfinite f) eqn:Hf; simpl; [done|by rewrite Hf].
  - rewrite deep_clean_list, deep_clean_list_filter.
    change (forallb json_safe (deep_clean <$> filter (λ v, negb (is_none v)) l) = true).
    induction IH as [|v l Hv _ IHl]; [done|].
    rewrite filter_cons. destruct (is_none v); simpl; [done|]. by rewrite Hv.
  - rewrite deep_clean_dict. apply map_fold_andb. intros k v'.
    rewrite lookup_omap. destruct (d !! k) as [v|] eqn:Hk; simpl; [|done].
    destruct (is_none v); [done|]. intros [= <-]. by apply (IH k v).
Qed.

Lemma has_nan_deep_clean (obj : pyval) : has_nan (deep_clean obj) = false.
Proof.
  induction obj as [| | |f| |l IH|d IH|] using pyval_ind; try done.
  - simpl. destruct (nonfinite f) eqn:Hf; simpl; [done|by rewrite Hf].
  - rewrite deep_clean_list, deep_clean_list_filter.
    change (existsb has_nan (deep_clean <$> filter (λ v, negb (is_none v)) l) = false).
    induction IH as [|v l Hv _ IHl]; [done|].
    rewrite filter_cons. destruct (is_none v); simpl; [done|]. by rewrite Hv.
  - rewrite deep_clean_dict. apply map_fold_orb_false. intros k v'.
    rewrite lookup_omap. destruct (d !! k) as [v|] eqn:Hk; simpl; [|done].
    destruct (is_none v); [done|]. intros [= <-]. by apply (IH k v).
Qed.

(** ** The traversals return *)

Lemma mapM_Ok {A B} (f : A → outcome B) (g : A → B) (l : list A) :
  Forall (λ x, f x = Ok (g x)) l → mapM f l = Ok (g <$> l).
Proof.
  induction 1 as [|x l Hx _ IH]; [done|].
  rewrite fmap_cons. simpl. rewrite Hx. simpl.
  change (mapM f l ≫= (λ k, mret (g x :: k)) = Ok (g x :: (g <$> l))).
  by rewrite IH.
Qed.

Lemma filter_all {A} (l : list A) : filter (λ _, true) l = l.
Proof.
  induction l as [|x l IH]; [done|]. by rewrite filter_cons_True, IH.
Qed.

(** The items of a dict have distinct keys: filtered and put back into a
    dict, they make the filtered dict. *)
Lemma dict_of_filter_items (P : string * pyval → Prop) `{!∀ kv, Decision (P kv)}
    (d : gmap string pyval) :
  dict_of (filter P (map_to_list d)) = filter P d.
Proof.
  unfold dict_of. rewrite map_filter_alt.
  apply list_to_map_proper; [|apply reverse_Permutation].
  rewrite fmap_reverse, (reverse_Permutation _).
  eapply sublist_NoDup; [apply (NoDup_fst_map_to_list d)|].
  apply fmap_sublist, sublist_filter.
Qed.

Lemma dict_of_fmap (g : pyval → pyval) (kvs : list (string * pyval)) :
  dict_of (prod_map id g <$> kvs) = g <$> dict_of kvs.
Proof. unfold dict_of. by rewrite <- fmap_reverse, list_to_map_fmap. Qed.

(** A dict comprehension whose value expression returns on every kept
    entry returns the dict of the results. *)
Lemma dict_comp_Ok (f : pyval → outcome pyval) (g : pyval → pyval)
    (keep : pyval → bool) (d : gmap string pyval) :
  (∀ k v, d !! k = Some v → keep v → f v = Ok (g v)) →
  dict_comp f keep (map_to_list d) =
  Ok (PDict (g <$> filter (λ kv, keep kv.2) d)).
Proof.
  intros Hf. unfold dict_comp.
  rewrite (mapM_Ok _ (prod_map id g)).
  - simpl. do 2 f_equal. by rewrite dict_of_fmap, dict_of_filter_items.
  - apply Forall_forall. intros [k v] [Hkeep Hin]%list_elem_of_filter.
    apply elem_of_map_to_list in Hin. simpl in *. by rewrite (Hf k v).
Qed.

Lemma list_comp_Ok (f : pyval → outcome pyval) (g : pyval → pyval)
    (keep : pyval → bool) (l : list pyval) :
  (∀ v, v ∈ l → keep v → f v = Ok (g v)) →
  list_comp f keep l = Ok (PList (g <$> filter (λ v, keep v) l)).
Proof.
  intros Hf. unfold list_comp. rewrite (mapM_Ok _ g); [done|].
  apply Forall_forall. intros v [Hkeep Hin]%list_elem_of_filter. by apply Hf.
Qed.

(** The float branch shared by both traversals. *)
Lemma float_branch_Ok (f : float) :
  (nan ← math_isnan (PFloat f);
   bad ← (if nan : bool then mret true else math_isinf (PFloat f));
   if bad : bool then mret PNone else mret (PFloat f)) =
  Ok (if nonfinite f then PNone else PFloat f).
Proof.
  unfold nonfinite. simpl.
  destruct (PrimFloat.is_nan f); simpl; [done|].
  by destruct (PrimFloat.is_infinity f).
Qed.

Lemma filter_dict_all (d : gmap string pyval) :
  filter (λ kv : string * pyval, (λ _ : pyval, true) kv.2) d = d.
Proof. apply map_filter_id. done. Qed.

Lemma deep_clean_dict_filter (d : gmap string pyval) :
  omap (λ v, if is_none v then None else Some (deep_clean v)) d =
  deep_clean <$> filter (λ kv : string * pyval, negb (is_none kv.2)) d.
Proof.
  apply map_eq. intros k.
  rewrite lookup_omap, lookup_fmap, map_lookup_filter.
  destruct (d !! k) as [v|]; simpl; [|done].
  by destruct (is_none v).
Qed.

Lemma clean_nan_run_Ok (obj : pyval) (fuel : nat) :
  (size obj ≤ fuel)%nat → clean_nan_run fuel obj = Ok (clean_nan obj).
Proof.
  revert fuel.
  induction obj as [| | |f| |l IH|d IH|] using pyval_ind;
    intros [|n] Hn; try (simpl in Hn; lia); try done.
  - apply float_branch_Ok.
  - change (list_comp (clean_nan_run n) (λ _, true) l = Ok (clean_nan (PList l))).
    rewrite (list_comp_Ok _ clean_nan), filter_all; [done|].
    intros v Hv _. rewrite Forall_forall in IH. apply IH; [done|].
    apply size_list_elem in Hv. lia.
  - change (dict_comp (clean_nan_run n) (λ _, true) (map_to_list d)
            = Ok (clean_nan (PDict d))).
    rewrite (dict_comp_Ok _ clean_nan), filter_dict_all; [done|].
    intros k v Hk _. apply (IH k v Hk).
    apply size_dict_elem in Hk. lia.
Qed.

Lemma deep_clean_run_Ok (obj : pyval) (fuel : nat) :
  (size obj ≤ fuel)%nat → deep_clean_run fuel obj = Ok (deep_clean obj).
Proof.
  revert fuel.
  induction obj as [| | |f| |l IH|d IH|] using pyval_ind;
    intros [|n] Hn; try (simpl in Hn; lia); try done.
  - apply float_branch_Ok.
  - change (list_comp (deep_clean_run n) (λ v, negb (is_none v)) l
            = Ok (deep_clean (PList l))).
    rewrite (list_comp_Ok _ deep_clean), deep_clean_list, deep_clean_list_filter; [done|].
    intros v Hv _. rewrite Forall_forall in IH. apply IH; [done|].
    apply size_list_elem in Hv. lia.
  - change (dict_comp (deep_clean_run n) (λ v, negb (is_none v)) (map_to_list d)
            = Ok (deep_clean (PDict d))).
    rewrite (dict_comp_Ok _ deep_clean), deep_clean_dict, deep_clean_dict_filter; [done|].
    intros k v Hk _. apply (IH k v Hk).
    apply size_dict_elem in Hk. lia.
Qed.

(** ** The normaliser *)

Lemma kept_spec (v : pyval) :
  kept v ↔ v ≠ PNone ∧ v ≠ PStr "undefined".
Proof.
  unfold kept.
  destruct v as [| | | |s| | |]; simpl;
    try (split; [intros _; split; discriminate|done]).
  - split; [intros []|]. intros [Hn _]. by destruct Hn.
  - case_bool_decide as Hs; simpl.
    + subst. split; [intros []|]. intros [_ Hu]. by destruct Hu.
    + split; [|done]. intros _. split; [discriminate|]. intros [= ->]. by destruct Hs.
Qed.

Lemma normalize_lookup_Some (p : gmap string pyval) (k : string) (v : pyval) :
  normalize p !! k = Some v ↔ p !! k = Some v ∧ v ≠ PNone ∧ v ≠ PStr "undefined".
Proof.
  unfold normalize. rewrite map_lookup_filter_Some. simpl. by rewrite kept_spec.
Qed.

Lemma normalize_lookup_None (p : gmap string pyval) (k : string) :
  normalize p !! k = None ↔
  p !! k = None ∨ p !! k = Some PNone ∨ p !! k = Some (PStr "undefined").
Proof.
  unfold normalize. rewrite map_lookup_filter_None. simpl. split.
  - intros [?|Hno]; [by left|]. destruct (p !! k) as [v|] eqn:Hk; [|by left].
    right. specialize (Hno v eq_refl). rewrite kept_spec in Hno.
    destruct v as [| | | |s| | |]; try (exfalso; apply Hno; by split).
    + by left.
    + destruct (decide (s = "undefined")) as [->|Hs]; [by right|].
      exfalso. apply Hno. split; [done|]. by intros [= ->].
  - intros [?|[Hk|Hk]]; [by left|right; intros x Hx..];
      rewrite Hk in Hx; injection Hx as <-; rewrite kept_spec; tauto.
Qed.

Lemma normalize_exc_Ok (p : gmap string pyval) :
  normalize_exc (PDict p) = Ok (PDict (normalize p)).
Proof.
  unfold normalize_exc, normalize. simpl. by rewrite dict_of_filter_items.
Qed.

(** * The claims on the sanitiser and the normaliser *)

(** C1 (encodability): for every tree [t], [has_nan (clean_nan t)] is
    false: no non-finite float is left in [clean_nan t] at any depth; and
    [clean_nan t] has a JSON text unless [t] holds an object of an
    unrecognised type. *)
Theorem clean_nan_encodable (t : pyval) :
  has_nan (clean_nan t) = false ∧
  ¬ nonfinite_inside (clean_nan t) ∧
  json_safe (clean_nan t) = negb (has_obj t).
Proof.
  split; [apply has_nan_clean_nan|split].
  - rewrite <- has_nan_spec, has_nan_clean_nan. discriminate.
  - apply json_safe_clean_nan.
Qed.

(** C2 (primary sanitize pass): [clean_nan] is the function the spec
    describes.  A tree is related to [t'] by the spec's rules exactly when
    [t'] is [clean_nan t]; on a mapping it keeps the keys and sanitises each
    value; on a sequence it keeps the length and the order and sanitises
    each element; a NaN or an infinity becomes null; every finite scalar is
    returned unchanged. *)
Theorem clean_nan_computes_spec :
  (∀ t t', sanitize_spec t t' ↔ t' = clean_nan t) ∧
  (∀ d, ∃ d', clean_nan (PDict d) = PDict d' ∧ dom d' = dom d ∧
              ∀ k, d' !! k = clean_nan <$> d !! k) ∧
  (∀ l, ∃ l', clean_nan (PList l) = PList l' ∧ length l' = length l ∧
              ∀ i, l' !! i = clean_nan <$> l !! i) ∧
  (∀ f, nonfinite f = true → clean_nan (PFloat f) = PNone) ∧
  (∀ v, finite_scalar v = true → clean_nan v = v).
Proof.
  repeat split.
  - apply sanitize_spec_functional.
  - intros ->. apply sanitize_spec_clean_nan.
  - intros d. exists (clean_nan <$> d). split; [done|]. split.
    + apply dom_fmap_L.
    + intros k. apply lookup_fmap.
  - intros l. exists (clean_nan <$> l). split; [done|]. split.
    + apply length_fmap.
    + intros i. apply list_lookup_fmap.
  - intros f Hf. simpl. by rewrite Hf.
  - intros [| | |f| | | |] Hv; try done. simpl in *.
    by destruct (nonfinite f).
Qed.

Lemma clean_nan_computes_spec_witness :
  clean_nan (PFloat nan) = PNone ∧
  clean_nan (PFloat neg_infinity) = PNone ∧
  clean_nan (PFloat 1250.5) = PFloat 1250.5 ∧
  clean_nan (PInt 7) = PInt 7.
Proof.
  destruct clean_nan_computes_spec as (_ & _ & _ & Hnf & Hfin).
  split; [apply Hnf; reflexivity|].
  split; [apply Hnf; reflexivity|].
  split; apply Hfin; reflexivity.
Defined.

(** C3 (idempotence): sanitising a sanitised tree changes nothing. *)
Theorem clean_nan_idempotent (t : pyval) :
  clean_nan (clean_nan t) = clean_nan t.
Proof.
  induction t as [| | |f| |l IH|d IH|] using pyval_ind; try done.
  - simpl. destruct (nonfinite f) eqn:Hf; simpl; [done|by rewrite Hf].
  - simpl. f_equal. induction IH as [|v l Hv _ IHl]; [done|].
    rewrite !fmap_cons. by rewrite Hv, IHl.
  - simpl. f_equal. apply map_eq. intros k. rewrite !lookup_fmap.
    destruct (d !! k) as [w|] eqn:Hk; simpl; [|done].
    f_equal. by apply (IH k w).
Qed.

(** C4 (the sanitiser never raises): run statement by statement, with
    every method call and [math] call able to raise, [clean_nan] and
    [deep_clean] return on every tree, and return what the functions
    [clean_nan] and [deep_clean] compute, as soon as the depth allowed for
    the recursion covers the tree. *)
Theorem sanitizer_never_raises (t : pyval) (extra : nat) :
  clean_nan_run (size t + extra) t = Ok (clean_nan t) ∧
  deep_clean_run (size t + extra) t = Ok (deep_clean t).
Proof.
  split; [apply clean_nan_run_Ok|apply deep_clean_run_Ok]; lia.
Qed.

(** C5 (deep-clean fallback): [deep_clean] is the function the spec
    describes.  A tree is related to [t'] by the spec's rules exactly when
    [t'] is [deep_clean t]; an entry of a mapping or a sequence whose value
    is null is dropped and the others are rebuilt; integers, strings,
    booleans and finite floats are unchanged; a non-finite float becomes
    null; an object of another type becomes its text; and the output has a
    JSON text. *)
Theorem deep_clean_computes_spec :
  (∀ t t', deep_clean_spec t t' ↔ t' = deep_clean t) ∧
  (∀ d, ∃ d', deep_clean (PDict d) = PDict d' ∧
              ∀ k, d' !! k =
                   v ← d !! k; if is_none v then None else Some (deep_clean v)) ∧
  (∀ l, deep_clean (PList l) =
        PList (deep_clean <$> filter (λ v, negb (is_none v)) l)) ∧
  (∀ z s b, deep_clean (PInt z) = PInt z ∧ deep_clean (PStr s) = PStr s ∧
            deep_clean (PBool b) = PBool b) ∧
  (∀ f, deep_clean (PFloat f) = if nonfinite f then PNone else PFloat f) ∧
  (∀ r, deep_clean (PObj r) = PStr r) ∧
  (∀ t, json_safe (deep_clean t) = true).
Proof.
  repeat split.
  - apply deep_clean_spec_functional.
  - intros ->. apply deep_clean_spec_deep_clean.
  - intros d. eexists. split; [apply deep_clean_dict|].
    intros k. apply lookup_omap.
  - intros l. by rewrite deep_clean_list, deep_clean_list_filter.
  - apply json_safe_deep_clean.
Qed.

(** C6 (normalisation): the normalised payload maps no key to null or to
    ["undefined"], keeps every other pair of the payload as it is, adds
    nothing, and the normaliser returns on every payload. *)
Theorem normalize_spec (p : gmap string pyval) :
  (∀ k, normalize p !! k ≠ Some PNone ∧
        normalize p !! k ≠ Some (PStr "undefined")) ∧
  (∀ k v, p !! k = Some v → v ≠ PNone → v ≠ PStr "undefined" →
          normalize p !! k = Some v) ∧
  (∀ k v, normalize p !! k = Some v → p !! k = Some v) ∧
  normalize_exc (PDict p) = Ok (PDict (normalize p)).
Proof.
  split; [|split; [|split]].
  - intros k. split; intros H; rewrite normalize_lookup_Some in H.
    + destruct H as (_ & Hn & _). by destruct Hn.
    + destruct H as (_ & _ & Hu). by destruct Hu.
  - intros k v Hk Hn Hu. by apply normalize_lookup_Some.
  - intros k v H. rewrite normalize_lookup_Some in H. tauto.
  - apply normalize_exc_Ok.
Qed.

Lemma normalize_spec_witness :
  normalize scenario1 !! "kWp" = Some (PInt 100) ∧
  normalize scenario1 !! "notes" = None.
Proof.
  split.
  - apply (proj1 (proj2 (normalize_spec scenario1))); [reflexivity|discriminate..].
  - apply normalize_lookup_None. right. left. reflexivity.
Defined.

(** C9 (top level only): a nested mapping or sequence stays as it is, with
    the nulls and the ["undefined"]s inside it; a key is absent from the
    normalised payload only if it was absent or its own value was null or
    ["undefined"]. *)
Theorem normalize_top_level_only (p : gmap string pyval) (k : string) :
  (∀ d, p !! k = Some (PDict d) → normalize p !! k = Some (PDict d)) ∧
  (∀ l, p !! k = Some (PList l) → normalize p !! k = Some (PList l)) ∧
  (normalize p !! k = None ↔
   p !! k = None ∨ p !! k = Some PNone ∨ p !! k = Some (PStr "undefined")).
Proof.
  split; [|split].
  - intros d Hk. by apply normalize_lookup_Some.
  - intros l Hk. by apply normalize_lookup_Some.
  - apply normalize_lookup_None.
Qed.

Lemma normalize_top_level_only_witness :
  normalize nested_payload !! "extras" =
    Some (PDict {[ "a" := PNone; "b" := PStr "undefined" ]}) ∧
  normalize nested_payload !! "series" =
    Some (PList [PNone; PStr "undefined"; PInt 1]) ∧
  normalize nested_payload !! "notes" = None ∧
  normalize nested_payload !! "ref" = None.
Proof.
  split; [|split; [|split]].
  - apply (proj1 (normalize_top_level_only nested_payload "extras")). reflexivity.
  - apply (proj1 (proj2 (normalize_top_level_only nested_payload "series"))). reflexivity.
  - apply (proj2 (proj2 (normalize_top_level_only nested_payload "notes"))).
    right. left. reflexivity.
  - apply (proj2 (proj2 (normalize_top_level_only nested_payload "ref"))).
    right. right. reflexivity.
Defined.

(** C10 (the filter of [deep_clean] runs before the cleaning): a key of a
    mapping whose value is a non-finite float is kept, mapped to null; so
    the output of [deep_clean] can hold nulls, and [deep_clean] is not
    idempotent: a second run drops that entry. *)
Theorem deep_clean_filters_before_cleaning :
  (∀ d k f, d !! k = Some (PFloat f) → nonfinite f = true →
            ∃ d', deep_clean (PDict d) = PDict d' ∧ d' !! k = Some PNone ∧
                  ∃ d'', deep_clean (deep_clean (PDict d)) = PDict d'' ∧
                         d'' !! k = None) ∧
  (∃ x, deep_clean (deep_clean x) ≠ deep_clean x).
Proof.
  assert (Hkey : ∀ d k f, d !! k = Some (PFloat f) → nonfinite f = true →
            ∃ d', deep_clean (PDict d) = PDict d' ∧ d' !! k = Some PNone ∧
                  ∃ d'', deep_clean (deep_clean (PDict d)) = PDict d'' ∧
                         d'' !! k = None).
  { intros d k f Hk Hf. eexists. split; [apply deep_clean_dict|]. split.
    - rewrite lookup_omap, Hk. simpl. by rewrite Hf.
    - rewrite !deep_clean_dict. eexists. split; [done|].
      rewrite !lookup_omap, Hk. simpl. by rewrite Hf. }
  split; [exact Hkey|].
  exists (PDict {[ "tir" := PFloat nan ]}).
  destruct (Hkey {[ "tir" := PFloat nan ]} "tir" nan) as (d' & -> & Hd' & d'' & -> & Hd'');
    [reflexivity..|].
  intros [= ->]. congruence.
Qed.

Lemma deep_clean_filters_before_cleaning_witness :
  deep_clean (PDict {[ "tir" := PFloat nan; "van" := PInt 3 ]}) =
    PDict {[ "tir" := PNone; "van" := PInt 3 ]} ∧
  deep_clean (deep_clean (PDict {[ "tir" := PFloat nan; "van" := PInt 3 ]})) =
    PDict {[ "van" := PInt 3 ]} ∧
  ∃ d', deep_clean (PDict {[ "tir" := PFloat nan; "van" := PInt 3 ]}) = PDict d' ∧
        d' !! "tir" = Some PNone ∧
        ∃ d'', deep_clean (deep_clean (PDict {[ "tir" := PFloat nan; "van" := PInt 3 ]}))
                 = PDict d'' ∧ d'' !! "tir" = None.
Proof.
  split; [reflexivity|]. split; [reflexivity|].
  apply (proj1 deep_clean_filters_before_cleaning _ "tir" nan); reflexivity.
Defined.

(** * The claims on the handler *)

(** ** The handler's error paths *)

Section CalculateFacts.

Context {Inputs Result : Type}.
Context (FinancialInputs : gmap string pyval → outcome Inputs).
Context (engine_calculate : Inputs → outcome Result).
Context (model_dump_json model_dump : Result → outcome pyval).
Context (json_dumps : pyval → outcome string).
Context (inputs_log : Inputs → outcome string).
Context (result_log : Result → outcome string).
Context (format_exc : exn → string).
Context (render : pyval → outcome string).

Local Abbreviation try_block :=
  (calculate_try Inputs Result FinancialInputs engine_calculate
     model_dump_json model_dump json_dumps inputs_log result_log).
Local Abbreviation calc :=
  (calculate Inputs Result FinancialInputs engine_calculate
     model_dump_json model_dump json_dumps inputs_log result_log format_exc
     render).

(** An exception of the validating constructor ends the [try] block after
    that one call. *)
Lemma raise_in_inputs (p : gmap string pyval) (e : exn) :
  FinancialInputs (normalize p) = Raise e →
  try_block p = ([Called CallFinancialInputs], Raise e).
Proof. intros H. unfold calculate_try, invoke. by rewrite H. Qed.

(** An exception of the engine ends it after the second call. *)
Lemma raise_in_engine (p : gmap string pyval) (i : Inputs) (s : string) (e : exn) :
  FinancialInputs (normalize p) = Ok i →
  inputs_log i = Ok s →
  engine_calculate i = Raise e →
  try_block p = ([Called CallFinancialInputs; Called CallEngine], Raise e).
Proof.
  intros Hi Hs He. unfold calculate_try, invoke, lift. rewrite Hi. simpl.
  rewrite Hs. simpl. by rewrite He.
Qed.

(** When both serialisation modes fail, the second exception ends it. *)
Lemma raise_in_dump (p : gmap string pyval) (i : Inputs) (r : Result)
    (s s' : string) (e e' : exn) :
  FinancialInputs (normalize p) = Ok i →
  inputs_log i = Ok s →
  engine_calculate i = Ok r →
  result_log r = Ok s' →
  model_dump_json r = Raise e →
  model_dump r = Raise e' →
  try_block p =
    ([Called CallFinancialInputs; Called CallEngine; Called CallModelDumpJson;
      Caught e; Called CallModelDump], Raise e').
Proof.
  intros Hi Hs Hr Hs' He He'. unfold calculate_try, serialize, sanitize, invoke, lift, try_except.
  rewrite Hi. simpl. rewrite Hs. simpl. rewrite Hr. simpl. rewrite Hs'. simpl.
  rewrite He. simpl. by rewrite He'.
Qed.

(** An exception of [json.dumps] that is neither a [ValueError] nor a
    [TypeError] is not caught by the inner [except]. *)
Lemma raise_in_sanitize (p : gmap string pyval) (i : Inputs) (r : Result)
    (s s' : string) (dumped : pyval) (e : exn) :
  FinancialInputs (normalize p) = Ok i →
  inputs_log i = Ok s →
  engine_calculate i = Ok r →
  result_log r = Ok s' →
  model_dump_json r = Ok dumped →
  json_dumps (clean_nan dumped) = Raise e →
  is_value_or_type_error e = false →
  try_block p =
    ([Called CallFinancialInputs; Called CallEngine; Called CallModelDumpJson;
      Called CallJsonDumps], Raise e).
Proof.
  intros Hi Hs Hr Hs' Hd He Hc. unfold calculate_try, serialize, sanitize, invoke, lift, try_except.
  rewrite Hi. simpl. rewrite Hs. simpl. rewrite Hr. simpl. rewrite Hs'. simpl.
  rewrite Hd. simpl. rewrite has_nan_clean_nan, He. simpl. by rewrite Hc.
Qed.

(** A [ValueError] or a [TypeError] of [json.dumps] is caught: the answer
    is a 200 with the deep-cleaned tree. *)
Lemma recover_in_sanitize (p : gmap string pyval) (i : Inputs) (r : Result)
    (s s' : string) (dumped : pyval) (e : exn) :
  FinancialInputs (normalize p) = Ok i →
  inputs_log i = Ok s →
  engine_calculate i = Ok r →
  result_log r = Ok s' →
  model_dump_json r = Ok dumped →
  json_dumps (clean_nan dumped) = Raise e →
  is_value_or_type_error e = true →
  calc p =
    ([Called CallFinancialInputs; Called CallEngine; Called CallModelDumpJson;
      Called CallJsonDumps; Caught e],
     Response 200 (deep_clean (clean_nan dumped)) ∅).
Proof.
  intros Hi Hs Hr Hs' Hd He Hc.
  unfold calculate, calculate_try, serialize, sanitize, invoke, lift, try_except.
  rewrite Hi. simpl. rewrite Hs. simpl. rewrite Hr. simpl. rewrite Hs'. simpl.
  rewrite Hd. simpl. rewrite has_nan_clean_nan, He. simpl. by rewrite Hc.
Qed.

(** A step that returns was made of two steps that returned. *)
Lemma handler_bind_Ok {A B} (m : handler A) (k : A → handler B)
    (t : list event) (b : B) :
  m ≫= k = (t, Ok b) →
  ∃ t1 a t2, m = (t1, Ok a) ∧ k a = (t2, Ok b) ∧ t = (t1 ++ t2)%list.
Proof.
  destruct m as [t1 [a|e]]; simpl; [|done].
  destruct (k a) as [t2 r] eqn:Hk. intros [= <- ->]. by exists t1, a, t2.
Qed.

(** Whatever [json.dumps] says, what the sanitiser returns holds no
    non-finite float. *)
Lemma sanitize_Ok_no_nan (dumped : pyval) (t : list event) (v : pyval) :
  sanitize json_dumps dumped = (t, Ok v) → has_nan v = false.
Proof.
  unfold sanitize, invoke, lift, try_except. rewrite has_nan_clean_nan. simpl.
  destruct (json_dumps (clean_nan dumped)) as [js|e]; simpl.
  - destruct (py_keys (clean_nan dumped)) as [ks|e]; simpl.
    + intros [= _ <-]. apply has_nan_clean_nan.
    + destruct (is_value_or_type_error e); [|done].
      intros [= _ <-]. apply has_nan_deep_clean.
  - destruct (is_value_or_type_error e); [|done].
    intros [= _ <-]. apply has_nan_deep_clean.
Qed.

(** The body of a 200 holds no non-finite float. *)
Lemma calculate_ok_no_nan (p : gmap string pyval) :
  status (calc p).2 = 200%Z → has_nan (content (calc p).2) = false.
Proof.
  unfold calculate.
  destruct (try_block p) as [t [v|[m errs|c n m]]] eqn:Htry; simpl;
    [|by destruct (render _)|done].
  intros _. unfold calculate_try in Htry.
  apply handler_bind_Ok in Htry as (t1 & i & t2 & _ & Htry & _).
  apply handler_bind_Ok in Htry as (t3 & s & t4 & _ & Htry & _).
  apply handler_bind_Ok in Htry as (t5 & r & t6 & _ & Htry & _).
  apply handler_bind_Ok in Htry as (t7 & s' & t8 & _ & Htry & _).
  apply handler_bind_Ok in Htry as (t9 & dumped & t10 & _ & Htry & _).
  by eapply sanitize_Ok_no_nan.
Qed.

(** The handler answers 200, 422 or 500, and sets the CORS header itself on
    everything but a 200. *)
Lemma calculate_status (p : gmap string pyval) :
  (status (calc p).2 = 200 ∨ status (calc p).2 = 422 ∨ status (calc p).2 = 500)%Z.
Proof.
  unfold calculate. destruct (try_block p) as [t [v|[m errs|c n m]]]; simpl;
    try destruct (render _); simpl; auto.
Qed.

Lemma calculate_error_headers (p : gmap string pyval) :
  status (calc p).2 ≠ 200%Z → headers (calc p).2 = cors_headers.
Proof.
  unfold calculate. destruct (try_block p) as [t [v|[m errs|c n m]]]; simpl;
    try destruct (render _); simpl; done.
Qed.

(** C7 (validation gate): when the validating constructor raises
    [ValidationError] on the normalised payload, the constructor is the
    only collaborator called, so the engine is never called; the answer is
    the 422 with the body [{"error": "ValidationError", "message": str(e),
    "details": e.errors()}] and the CORS header if [JSONResponse] can write
    that body; if it cannot, the exception it raises leaves [calculate]
    and the answer is the 500 of the global handler. *)
Theorem validation_gate (p : gmap string pyval) (msg : string) (errs : list pyval) :
  FinancialInputs (normalize p) = Raise (ValidationError msg errs) →
  ((calc p).1 = [Called CallFinancialInputs]) ∧
  (Called CallEngine ∉ (calc p).1) ∧
  (∀ text, render (validation_body msg errs) = Ok text →
           (calc p).2 = Response 422 (validation_body msg errs) cors_headers) ∧
  (∀ e, render (validation_body msg errs) = Raise e →
        (calc p).2 = global_exception_handler e ∧
        status (calc p).2 = 500%Z ∧
        ∃ d, content (calc p).2 = PDict d ∧
             d !! "error" = Some (PStr "InternalError") ∧
             d !! "type" = Some (PStr (exn_type_name e)) ∧
             d !! "details" = None).
Proof.
  intros H. unfold calculate. rewrite (raise_in_inputs _ _ H). simpl.
  split; [by destruct (render _)|]. split.
  - destruct (render _); simpl; by intros [=]%list_elem_of_singleton.
  - split.
    + intros text ->. done.
    + intros e ->. simpl. split; [done|]. split; [done|].
      eexists. split; [done|]. done.
Qed.

(** C8 (internal errors): a [try] block that ends with an exception other
    than [ValidationError] is answered with 500 and the body
    [{"error": "InternalError", "message": str(e), "traceback": ...}]
    and the CORS header; the global handler answers 500 with
    [{"error": "InternalError", "message": str(e), "type": ...}], without a
    ["traceback"] key; and every answer of the handler with status 422 or
    500 carries [Access-Control-Allow-Origin]. *)
Theorem internal_error_envelope :
  (∀ p t e,
     try_block p = (t, Raise e) → is_validation_error e = false →
     calc p = (t, Response 500
                    (PDict {[ "error" := PStr "InternalError";
                              "message" := PStr (exn_str e);
                              "traceback" := PStr (format_exc e) ]})
                    cors_headers)) ∧
  (∀ e, ∃ d,
     global_exception_handler e = Response 500 (PDict d) cors_headers ∧
     d !! "error" = Some (PStr "InternalError") ∧
     d !! "message" = Some (PStr (exn_str e)) ∧
     d !! "type" = Some (PStr (exn_type_name e)) ∧
     d !! "traceback" = None) ∧
  (∀ p, (status (calc p).2 = 422 ∨ status (calc p).2 = 500)%Z →
        headers (calc p).2 !! "Access-Control-Allow-Origin" = Some "*").
Proof.
  split; [|split].
  - intros p t e Htry He. unfold calculate. rewrite Htry.
    by destruct e.
  - intros e. eexists. split; [done|]. done.
  - intros p Hst. rewrite calculate_error_headers; [done|].
    intros H200. rewrite H200 in Hst. by destruct Hst.
Qed.

End CalculateFacts.

(** ** The handler on the scenarios of the spec *)

(** The payload [{"modo": "venta_total", "capex": NaN}]: [kWp] is missing,
    the report of the validator carries the input with its NaN,
    [JSONResponse] refuses the body of the 422, and the answer is the 500
    of the global handler: no 422, no [ValidationError] body, no
    [details]. *)
Lemma validation_gate_witness :
  pydantic_validator ["kWp"; "modo"] (normalize nan_payload) =
    Raise (ValidationError "validation error for FinancialInputs"
             [missing_entry_with_input nan_payload "kWp"]) ∧
  let answer := calculate _ _ (pydantic_validator ["kWp"; "modo"]) demo_engine
                  demo_dump demo_dump demo_json_dumps demo_log demo_log
                  demo_format_exc strict_render nan_payload in
  status answer.2 = 500%Z ∧
  status answer.2 ≠ 422%Z ∧
  ∃ d, content answer.2 = PDict d ∧
       d !! "error" = Some (PStr "InternalError") ∧
       d !! "type" = Some (PStr "ValueError") ∧
       d !! "details" = None.
Proof.
  split; [reflexivity|].
  destruct (validation_gate (pydantic_validator ["kWp"; "modo"]) demo_engine
              demo_dump demo_dump demo_json_dumps demo_log demo_log
              demo_format_exc strict_render nan_payload
              "validation error for FinancialInputs"
              [missing_entry_with_input nan_payload "kWp"] eq_refl)
    as (_ & _ & _ & Hno).
  destruct (Hno (PyException ValueErrorC "ValueError"
                   "Out of range float values are not JSON compliant") eq_refl)
    as (_ & Hst & Hd).
  split; [exact Hst|]. split; [|exact Hd].
  cbv zeta. rewrite Hst. discriminate.
Defined.

(** Scenario 2: the payload without [kWp] and without a NaN is answered
    with 422 and an entry of [details] naming [kWp]; the engine is not
    called. *)
Example calculate_scenario2 :
  calculate _ _ demo_validator demo_engine demo_dump demo_dump
    demo_json_dumps demo_log demo_log demo_format_exc strict_render scenario2 =
  ([Called CallFinancialInputs],
   Response 422
     (validation_body "validation error for FinancialInputs"
        [missing_entry "kWp"])
     cors_headers) ∧
  names_field "kWp" (missing_entry "kWp").
Proof. split; [reflexivity|]. eexists. split; reflexivity. Qed.

(** Scenario 4: the engine fails, the answer is 500 with the traceback and
    the CORS header. *)
Lemma internal_error_envelope_witness :
  calculate _ _ demo_validator failing_engine demo_dump demo_dump
    demo_json_dumps demo_log demo_log demo_format_exc strict_render scenario1 =
  ([Called CallFinancialInputs; Called CallEngine],
   Response 500
     (PDict {[ "error" := PStr "InternalError";
               "message" := PStr "float division by zero";
               "traceback" :=
                 PStr "Traceback (most recent call last): ... ZeroDivisionError" ]})
     cors_headers).
Proof.
  apply (proj1 (internal_error_envelope demo_validator failing_engine
                  demo_dump demo_dump demo_json_dumps demo_log demo_log
                  demo_format_exc strict_render)
           scenario1 [Called CallFinancialInputs; Called CallEngine]
           (PyException OtherC "ZeroDivisionError" "float division by zero"));
    reflexivity.
Defined.

(** C8 as stated fails: exceptions raised while serialising and sanitising
    are not answered with 500.  The JSON-mode dump fails and the default
    mode is used instead; [json.dumps] then raises a [TypeError] on the
    date, the inner [except] catches it, the tree is deep-cleaned (the date
    becomes its text, the null left by the NaN is dropped) and the answer
    is a 200. *)
Lemma caught_exception_is_not_500 :
  let run := calculate_try _ _ demo_validator dated_engine failing_dump_json
               demo_dump demo_json_dumps demo_log demo_log scenario1 in
  let answer := calculate _ _ demo_validator dated_engine failing_dump_json
                  demo_dump demo_json_dumps demo_log demo_log demo_format_exc
                  strict_render scenario1 in
  raised run SerializationError ∧
  is_validation_error SerializationError = false ∧
  raised run (TypeError "Object is not JSON serializable") ∧
  is_validation_error (TypeError "Object is not JSON serializable") = false ∧
  answer =
    ([Called CallFinancialInputs; Called CallEngine; Called CallModelDumpJson;
      Caught SerializationError; Called CallModelDump; Called CallJsonDumps;
      Caught (TypeError "Object is not JSON serializable")],
     Response 200
       (PDict {[ "fecha" := PStr "2024-01-31"; "van" := PFloat 1250.5 ]}) ∅) ∧
  status answer.2 ≠ 500%Z.
Proof.
  simpl. split; [|split; [|split; [|split; [|split]]]]; try reflexivity.
  - right. vm_compute. apply list_elem_of_In. simpl. tauto.
  - right. vm_compute. apply list_elem_of_In. simpl. tauto.
  - vm_compute. discriminate.
Qed.

(** Scenarios 1 and 3: [notes] is dropped, the validator accepts, and the
    NaN and the infinities of the result come back as nulls in a 200. *)
Example calculate_scenario3 :
  calculate _ _ demo_validator demo_engine demo_dump demo_dump
    demo_json_dumps demo_log demo_log demo_format_exc strict_render scenario1 =
  ([Called CallFinancialInputs; Called CallEngine; Called CallModelDumpJson;
    Called CallJsonDumps],
   Response 200
     (PDict {[ "kpis" := PDict {[ "van" := PFloat 1250.5; "tir" := PNone ]};
               "flows" := PList [PNone; PNone; PInt 0] ]})
     ∅).
Proof. reflexivity. Qed.

(** * Further properties of the sanitiser *)

Lemma existsb_false_Forall {A} (g : A → bool) (l : list A) :
  existsb g l = false ↔ Forall (λ x, g x = false) l.
Proof.
  induction l as [|x l IH]; simpl.
  - split; [constructor|done].
  - rewrite orb_false_iff, IH. split.
    + intros [Hx Hl]. by constructor.
    + by inversion 1.
Qed.

(** A tree in which [has_nan] finds nothing is left as it is. *)
Lemma clean_nan_no_nan (obj : pyval) : has_nan obj = false → clean_nan obj = obj.
Proof.
  induction obj as [| | |f| |l IH|d IH|] using pyval_ind; intros H; try done.
  - simpl in *. by rewrite H.
  - simpl in H. apply existsb_false_Forall in H. simpl. f_equal.
    induction IH as [|v l Hv _ IHl]; [done|].
    inversion H as [|v0 l0 Hv0 Hl0]; subst.
    rewrite fmap_cons. f_equal; [by apply Hv|by apply IHl].
  - simpl in H. apply map_fold_orb_false in H. simpl. f_equal.
    apply map_eq. intros k. rewrite lookup_fmap.
    destruct (d !! k) as [v|] eqn:Hk; simpl; [|done].
    f_equal. apply (IH k v Hk). by apply (H k v).
Qed.

Lemma is_none_clean_nan (v : pyval) :
  is_none (clean_nan v) = is_none v || nonfinite_float v.
Proof. destruct v as [| | |f| | | |]; try done. simpl. by destruct (nonfinite f). Qed.

Lemma is_none_deep_clean (v : pyval) :
  is_none (deep_clean v) = is_none v || nonfinite_float v.
Proof. destruct v as [| | |f| | | |]; try done. simpl. by destruct (nonfinite f). Qed.

(** What [deep_clean] makes of a kept entry is null, or holds a null
    entry, exactly when the entry held a non-finite float. *)
Lemma entry_deep_clean (v : pyval) :
  is_none v = false →
  has_null_entry (deep_clean v) = has_nan v && negb (isinstance_float v) →
  is_none (deep_clean v) || has_null_entry (deep_clean v) = has_nan v.
Proof.
  intros Hn ->. rewrite is_none_deep_clean, Hn.
  destruct v as [| | |f| | | |]; try done.
  - simpl. by destruct (nonfinite f).
  - change (isinstance_float (PList l)) with false. by rewrite andb_true_r.
  - change (isinstance_float (PDict d)) with false. by rewrite andb_true_r.
Qed.

Lemma has_null_entry_deep_clean (obj : pyval) :
  has_null_entry (deep_clean obj) = has_nan obj && negb (isinstance_float obj).
Proof.
  induction obj as [| | |f| |l IH|d IH|] using pyval_ind; try done.
  - simpl. rewrite andb_false_r. by destruct (nonfinite f).
  - rewrite deep_clean_list. change (isinstance_float (PList l)) with false.
    rewrite andb_true_r.
    change (existsb (λ v, is_none v || has_null_entry v)
              (omap (λ v, if is_none v then None else Some (deep_clean v)) l)
            = existsb has_nan l).
    induction IH as [|v l Hv _ IHl]; [done|]. simpl.
    destruct (is_none v) eqn:Hn.
    + apply is_none_true in Hn as ->. simpl. exact IHl.
    + simpl. rewrite (entry_deep_clean v Hn Hv). f_equal. exact IHl.
  - rewrite deep_clean_dict. change (isinstance_float (PDict d)) with false.
    rewrite andb_true_r. apply eq_true_iff_eq.
    change (has_null_entry (PDict ?m)) with
      (map_fold (λ _ v acc, (is_none v || has_null_entry v) || acc) false m).
    change (has_nan (PDict d)) with (map_fold (λ _ v acc, has_nan v || acc) false d).
    rewrite (map_fold_orb (λ v, is_none v || has_null_entry v)), map_fold_orb.
    split.
    + intros (k & v' & Hk & Hv'). rewrite lookup_omap in Hk.
      destruct (d !! k) as [v|] eqn:Hd; simpl in Hk; [|done].
      destruct (is_none v) eqn:Hn; [done|]. injection Hk as <-.
      exists k, v. split; [done|]. by rewrite <- (entry_deep_clean v Hn (IH k v Hd)).
    + intros (k & v & Hd & Hv). exists k, (deep_clean v).
      assert (Hn : is_none v = false) by (by destruct v).
      rewrite lookup_omap, Hd. simpl. rewrite Hn. split; [done|].
      by rewrite (entry_deep_clean v Hn (IH k v Hd)).
Qed.

(** A tree without null entries, non-finite floats and unrecognised objects
    is left as it is by [deep_clean]. *)
Lemma deep_clean_id (obj : pyval) :
  has_null_entry obj = false → json_safe obj = true → deep_clean obj = obj.
Proof.
  induction obj as [| | |f| |l IH|d IH|] using pyval_ind; intros Hnull Hsafe; try done.
  - simpl in *. apply negb_true_iff in Hsafe. by rewrite Hsafe.
  - rewrite deep_clean_list. f_equal.
    simpl in Hnull, Hsafe. apply existsb_false_Forall in Hnull.
    induction IH as [|v l Hv _ IHl]; [done|].
    inversion Hnull as [|v0 l0 Hv0 Hl0]; subst.
    simpl in Hsafe. apply andb_true_iff in Hsafe as [Hs Hsl].
    apply orb_false_iff in Hv0 as [Hn Hne].
    simpl. rewrite Hn, (Hv Hne Hs). f_equal. by apply IHl.
  - rewrite deep_clean_dict. f_equal.
    simpl in Hnull, Hsafe.
    apply (map_fold_orb_false (λ v, is_none v || has_null_entry v)) in Hnull.
    apply map_fold_andb in Hsafe.
    apply map_eq. intros k. rewrite lookup_omap.
    destruct (d !! k) as [v|] eqn:Hk; simpl; [|done].
    specialize (Hnull k v Hk). simpl in Hnull.
    apply orb_false_iff in Hnull as [Hn Hne].
    rewrite Hn. f_equal. apply (IH k v Hk Hne). by apply (Hsafe k v).
Qed.

(** X1 (fixed points of [clean_nan]): [clean_nan] leaves a tree as it is
    exactly when [has_nan] finds no non-finite float in it. *)
Theorem clean_nan_fixed_point (t : pyval) :
  clean_nan t = t ↔ has_nan t = false.
Proof.
  split.
  - intros H. rewrite <- H. apply has_nan_clean_nan.
  - apply clean_nan_no_nan.
Qed.

(** X2 ([deep_clean] removes the non-finite floats too): [has_nan] finds
    nothing in the output of [deep_clean], and [clean_nan] leaves that
    output as it is. *)
Theorem deep_clean_leaves_no_nan (t : pyval) :
  has_nan (deep_clean t) = false ∧
  ¬ nonfinite_inside (deep_clean t) ∧
  clean_nan (deep_clean t) = deep_clean t.
Proof.
  split; [apply has_nan_deep_clean|split].
  - rewrite <- has_nan_spec, has_nan_deep_clean. discriminate.
  - apply clean_nan_no_nan, has_nan_deep_clean.
Qed.

(** X3 (where the nulls of [deep_clean] come from): the output of
    [deep_clean] has a null list element or dict value exactly when the
    input held a non-finite float below its root; so after [clean_nan] it
    has none. *)
Theorem deep_clean_null_entries (t : pyval) :
  has_null_entry (deep_clean t) = has_nan t && negb (isinstance_float t) ∧
  has_null_entry (deep_clean (clean_nan t)) = false.
Proof.
  split; [apply has_null_entry_deep_clean|].
  by rewrite has_null_entry_deep_clean, has_nan_clean_nan.
Qed.

(** X4 ([deep_clean] is idempotent where there is no non-finite float): on
    a tree in which [has_nan] finds nothing a second [deep_clean] changes
    nothing. *)
Theorem deep_clean_idempotent_without_nan (t : pyval) :
  has_nan t = false → deep_clean (deep_clean t) = deep_clean t.
Proof.
  intros H. apply deep_clean_id; [|apply json_safe_deep_clean].
  by rewrite has_null_entry_deep_clean, H.
Qed.

Lemma deep_clean_idempotent_without_nan_witness :
  has_nan (PDict {[ "fecha" := PObj "2024-01-31"; "notes" := PNone;
                    "flows" := PList [PNone; PFloat 1.5] ]}) = false ∧
  deep_clean (deep_clean (PDict {[ "fecha" := PObj "2024-01-31"; "notes" := PNone;
                                   "flows" := PList [PNone; PFloat 1.5] ]})) =
  deep_clean (PDict {[ "fecha" := PObj "2024-01-31"; "notes" := PNone;
                       "flows" := PList [PNone; PFloat 1.5] ]}).
Proof.
  split; [reflexivity|].
  apply deep_clean_idempotent_without_nan. reflexivity.
Defined.

(** X5 (the fallback after the primary pass): [deep_clean] applied to the
    output of [clean_nan] keeps exactly the keys of a mapping whose value
    was neither null nor a non-finite float, each with its value cleaned
    by both passes; applied again it changes nothing. *)
Theorem fallback_after_primary_pass (d : gmap string pyval) :
  ∃ d', deep_clean (clean_nan (PDict d)) = PDict d' ∧
        (∀ k, d' !! k =
              v ← d !! k;
              if is_none v || nonfinite_float v then None
              else Some (deep_clean (clean_nan v))) ∧
        deep_clean (PDict d') = PDict d'.
Proof.
  eexists. split; [|split].
  - change (clean_nan (PDict d)) with (PDict (clean_nan <$> d)).
    apply deep_clean_dict.
  - intros k. rewrite lookup_omap, lookup_fmap.
    destruct (d !! k) as [v|]; simpl; [|done]. by rewrite is_none_clean_nan.
  - rewrite <- deep_clean_dict.
    change (PDict (clean_nan <$> d)) with (clean_nan (PDict d)).
    apply deep_clean_id; [|apply json_safe_deep_clean].
    by rewrite has_null_entry_deep_clean, has_nan_clean_nan.
Qed.

(** * Further properties of the normaliser *)

(** X6 (normalising twice): the normalised payload is part of the payload,
    normalising it again changes nothing, and a payload is left as it is
    exactly when none of its values is null or ["undefined"]. *)
Theorem normalize_idempotent (p : gmap string pyval) :
  normalize (normalize p) = normalize p ∧
  normalize p ⊆ p ∧
  (normalize p = p ↔
   ∀ k v, p !! k = Some v → v ≠ PNone ∧ v ≠ PStr "undefined").
Proof.
  split; [|split].
  - apply map_eq. intros k. apply option_eq. intros v.
    rewrite !normalize_lookup_Some. tauto.
  - apply map_subseteq_spec. intros k v Hk.
    rewrite normalize_lookup_Some in Hk. tauto.
  - split.
    + intros Heq k v Hk. rewrite <- Heq, normalize_lookup_Some in Hk. tauto.
    + intros Hall. apply map_eq. intros k. apply option_eq. intros v.
      rewrite normalize_lookup_Some. split; [tauto|].
      intros Hk. split; [done|]. by apply (Hall k).
Qed.

(** X7 (normalising an updated payload): setting a key and normalising is
    normalising and then setting the key, or removing it if the new value
    is null or ["undefined"]; removing a key commutes with normalising. *)
Theorem normalize_update (p : gmap string pyval) (k : string) (v : pyval) :
  normalize (<[k:=v]> p) =
    (if kept v then <[k:=v]> (normalize p) else delete k (normalize p)) ∧
  normalize (delete k p) = delete k (normalize p).
Proof.
  unfold normalize. split; [|apply map_filter_delete].
  rewrite map_filter_insert. simpl.
  destruct (kept v) eqn:Hv; case_decide as Hd; simpl in Hd;
    try done; by apply map_filter_delete.
Qed.

(** * Further properties of the handler *)

Section CalculatePaths.

Context {Inputs Result : Type}.
Context (FinancialInputs : gmap string pyval → outcome Inputs).
Context (engine_calculate : Inputs → outcome Result).
Context (model_dump_json model_dump : Result → outcome pyval).
Context (json_dumps : pyval → outcome string).
Context (inputs_log : Inputs → outcome string).
Context (result_log : Result → outcome string).
Context (format_exc : exn → string).
Context (render : pyval → outcome string).

Local Abbreviation try_block :=
  (calculate_try Inputs Result FinancialInputs engine_calculate
     model_dump_json model_dump json_dumps inputs_log result_log).
Local Abbreviation calc :=
  (calculate Inputs Result FinancialInputs engine_calculate
     model_dump_json model_dump json_dumps inputs_log result_log format_exc
     render).

(** Once the engine has returned, the rest of the [try] block is the
    serialisation and the sanitiser. *)
Lemma try_block_after_engine (p : gmap string pyval) (i : Inputs) (r : Result)
    (s s' : string) :
  FinancialInputs (normalize p) = Ok i →
  inputs_log i = Ok s →
  engine_calculate i = Ok r →
  result_log r = Ok s' →
  try_block p =
    (let '(t, o) := serialize Result model_dump_json model_dump r
                      ≫= sanitize json_dumps in
     ((Called CallFinancialInputs :: Called CallEngine :: t), o)).
Proof.
  intros Hi Hs Hr Hs'. unfold calculate_try, invoke, lift.
  rewrite Hi. simpl. rewrite Hs. simpl. rewrite Hr. simpl. rewrite Hs'. simpl.
  by destruct (serialize _ _ _ r ≫= sanitize json_dumps) as [t o].
Qed.

Lemma append_assoc (a b c : string) : (a +:+ b) +:+ c = a +:+ (b +:+ c).
Proof.
  induction a as [|x a IH]; [done|].
  change (String x ((a +:+ b) +:+ c) = String x (a +:+ (b +:+ c))).
  by rewrite IH.
Qed.

(** What is not a dict has no [keys]; the message names the class of the
    cleaned value. *)
Lemma py_keys_not_dict (dumped : pyval) (n : string) :
  type_name (clean_nan dumped) = Some n →
  n ≠ "dict" →
  py_keys (clean_nan dumped) =
    Raise (AttributeError ("'" +:+ n +:+ "' object has no attribute 'keys'")).
Proof.
  intros Hn Hd.
  assert (Hk : py_keys (clean_nan dumped) =
               Raise (no_attribute (clean_nan dumped) "keys")).
  { destruct dumped as [| | |f| | | |]; try done.
    - simpl. by destruct (nonfinite f).
    - by injection Hn as <-. }
  rewrite Hk. unfold no_attribute, cited. rewrite Hn. do 2 f_equal.
  rewrite !append_assoc. reflexivity.
Qed.

(** The two ways the result gets serialised. *)
Lemma serialize_from_dumps (r : Result) (dumped : pyval) :
  model_dump_json r = Ok dumped ∨
  ((∃ e, model_dump_json r = Raise e) ∧ model_dump r = Ok dumped) →
  ∃ t, serialize Result model_dump_json model_dump r = (t, Ok dumped).
Proof.
  unfold serialize, invoke, try_except.
  intros [Hj|[[e He] Hd]].
  - rewrite Hj. by eexists.
  - rewrite He. simpl. rewrite Hd. by eexists.
Qed.

(** The sanitiser on a tree that [json.dumps] refuses with a [ValueError]
    or a [TypeError]. *)
Lemma sanitize_refused (dumped : pyval) (e : exn) :
  json_dumps (clean_nan dumped) = Raise e →
  is_value_or_type_error e = true →
  sanitize json_dumps dumped =
    ([Called CallJsonDumps; Caught e], Ok (deep_clean (clean_nan dumped))).
Proof.
  intros Hj Hc. unfold sanitize, invoke, lift, try_except.
  rewrite has_nan_clean_nan. simpl. rewrite Hj. simpl. by rewrite Hc.
Qed.

(** The sanitiser on a tree that [json.dumps] accepts. *)
Lemma sanitize_accepted (dumped : pyval) (js : string) :
  json_dumps (clean_nan dumped) = Ok js →
  sanitize json_dumps dumped =
    match py_keys (clean_nan dumped) with
    | Ok _ => ([Called CallJsonDumps], Ok (clean_nan dumped))
    | Raise e =>
        if is_value_or_type_error e
        then ([Called CallJsonDumps; Caught e], Ok (deep_clean (clean_nan dumped)))
        else ([Called CallJsonDumps], Raise e)
    end.
Proof.
  intros Hj. unfold sanitize, invoke, lift, try_except.
  rewrite has_nan_clean_nan. simpl. rewrite Hj. simpl.
  destruct (py_keys (clean_nan dumped)) as [ks|e]; simpl; [done|].
  by destruct (is_value_or_type_error e).
Qed.

(** The rest of the [try] block once the result is serialised. *)
Lemma try_block_after_dump (p : gmap string pyval) (i : Inputs) (r : Result)
    (s s' : string) (t : list event) (dumped : pyval) :
  FinancialInputs (normalize p) = Ok i →
  inputs_log i = Ok s →
  engine_calculate i = Ok r →
  result_log r = Ok s' →
  serialize Result model_dump_json model_dump r = (t, Ok dumped) →
  try_block p =
    (let '(t', o) := sanitize json_dumps dumped in
     ((Called CallFinancialInputs :: Called CallEngine :: t ++ t')%list, o)).
Proof.
  intros Hi Hs Hr Hs' Hd.
  rewrite (try_block_after_engine p i r s s' Hi Hs Hr Hs'), Hd.
  cbn [mbind handler_bind].
  by destruct (sanitize json_dumps dumped) as [t' o].
Qed.

(** X8 (no non-finite float in a 200): whatever the validator, the engine,
    the serialisation and [json.dumps] do, the body of an answer with
    status 200 holds no NaN and no infinity at any depth. *)
Theorem ok_body_has_no_nan (p : gmap string pyval) :
  status (calc p).2 = 200%Z →
  has_nan (content (calc p).2) = false ∧
  ¬ nonfinite_inside (content (calc p).2).
Proof.
  intros H. apply calculate_ok_no_nan in H. split; [done|].
  rewrite <- has_nan_spec, H. discriminate.
Qed.

(** X9 (a null field is an absent field): a key sent with the value null or
    ["undefined"] gets the same answer, after the same calls, as the
    payload without that key. *)
Theorem null_field_is_absent_field (p : gmap string pyval) (k : string) (v : pyval) :
  kept v = false → calc (<[k:=v]> p) = calc (delete k p).
Proof.
  intros Hv. unfold calculate, calculate_try.
  replace (normalize (<[k:=v]> p)) with (normalize (delete k p)); [done|].
  unfold normalize. rewrite map_filter_insert_False; [done|].
  simpl. rewrite Hv. by intros [].
Qed.

(** X10 (a [ValidationError] of the engine): the first [except] clause also
    catches a [ValidationError] raised by the engine after the input was
    accepted: if [JSONResponse] can write the body built from its report,
    the answer is a 422 although the engine was called. *)
Theorem engine_validation_error_is_422 (p : gmap string pyval) (i : Inputs)
    (s msg text : string) (errs : list pyval) :
  FinancialInputs (normalize p) = Ok i →
  inputs_log i = Ok s →
  engine_calculate i = Raise (ValidationError msg errs) →
  render (validation_body msg errs) = Ok text →
  calc p =
    ([Called CallFinancialInputs; Called CallEngine],
     Response 422
       (PDict {[ "error" := PStr "ValidationError";
                 "message" := PStr msg;
                 "details" := PList errs ]})
       cors_headers).
Proof.
  intros Hi Hs He Hr. unfold calculate.
  rewrite (raise_in_engine _ _ _ _ _ _ _ p i s _ Hi Hs He). simpl.
  by rewrite Hr.
Qed.

(** X11 (a dump that is not a dict): the log line after [json.dumps] reads
    [cleaned.keys()]; if the serialised result, from either dump, is a
    list, a string, a number, a boolean or null, the [AttributeError] is
    not caught by the inner [except] and the answer is a 500 whose message
    names the class of the cleaned value, although [json.dumps] accepted
    the tree. *)
Theorem non_dict_dump_is_500 (p : gmap string pyval) (i : Inputs) (r : Result)
    (s s' js n : string) (dumped : pyval) :
  FinancialInputs (normalize p) = Ok i →
  inputs_log i = Ok s →
  engine_calculate i = Ok r →
  result_log r = Ok s' →
  (model_dump_json r = Ok dumped ∨
   ((∃ e, model_dump_json r = Raise e) ∧ model_dump r = Ok dumped)) →
  type_name (clean_nan dumped) = Some n →
  n ≠ "dict" →
  json_dumps (clean_nan dumped) = Ok js →
  (calc p).2 =
    Response 500
      (PDict {[ "error" := PStr "InternalError";
                "message" :=
                  PStr ("'" +:+ n +:+ "' object has no attribute 'keys'");
                "traceback" :=
                  PStr (format_exc
                          (AttributeError
                             ("'" +:+ n +:+ "' object has no attribute 'keys'"))) ]})
      cors_headers.
Proof.
  intros Hi Hs Hr Hs' Hd Hn Hnd Hj. unfold calculate.
  destruct (serialize_from_dumps r dumped Hd) as [t Ht].
  rewrite (try_block_after_dump p i r s s' t dumped Hi Hs Hr Hs' Ht).
  by rewrite (sanitize_accepted dumped js Hj), (py_keys_not_dict dumped n Hn Hnd).
Qed.

(** X12 (the body on the normal path): when the JSON-mode dump is a dict
    and [json.dumps] accepts the cleaned tree, the answer is a 200 whose
    body is the dump with the same keys, each value cleaned by [clean_nan];
    no header is set by the handler. *)
Theorem normal_path_body (p : gmap string pyval) (i : Inputs) (r : Result)
    (s s' js : string) (d : gmap string pyval) :
  FinancialInputs (normalize p) = Ok i →
  inputs_log i = Ok s →
  engine_calculate i = Ok r →
  result_log r = Ok s' →
  model_dump_json r = Ok (PDict d) →
  json_dumps (clean_nan (PDict d)) = Ok js →
  calc p =
    ([Called CallFinancialInputs; Called CallEngine; Called CallModelDumpJson;
      Called CallJsonDumps],
     Response 200 (PDict (clean_nan <$> d)) ∅).
Proof.
  intros Hi Hs Hr Hs' Hd Hj. unfold calculate.
  rewrite (try_block_after_dump p i r s s' [Called CallModelDumpJson] (PDict d)
             Hi Hs Hr Hs').
  - by rewrite (sanitize_accepted (PDict d) js Hj).
  - unfold serialize, invoke, try_except. by rewrite Hd.
Qed.

(** X13 (the serialisation fallback): when the JSON-mode dump raises, the
    default dump is used in its place; the exception is caught, appears
    nowhere in the answer, and the answer is the 200 of the default dump. *)
Theorem dump_fallback_is_silent (p : gmap string pyval) (i : Inputs) (r : Result)
    (s s' js : string) (e : exn) (d : gmap string pyval) :
  FinancialInputs (normalize p) = Ok i →
  inputs_log i = Ok s →
  engine_calculate i = Ok r →
  result_log r = Ok s' →
  model_dump_json r = Raise e →
  model_dump r = Ok (PDict d) →
  json_dumps (clean_nan (PDict d)) = Ok js →
  calc p =
    ([Called CallFinancialInputs; Called CallEngine; Called CallModelDumpJson;
      Caught e; Called CallModelDump; Called CallJsonDumps],
     Response 200 (PDict (clean_nan <$> d)) ∅).
Proof.
  intros Hi Hs Hr Hs' He Hd Hj. unfold calculate.
  rewrite (try_block_after_dump p i r s s'
             [Called CallModelDumpJson; Caught e; Called CallModelDump] (PDict d)
             Hi Hs Hr Hs').
  - by rewrite (sanitize_accepted (PDict d) js Hj).
  - unfold serialize, invoke, try_except. rewrite He. simpl. by rewrite Hd.
Qed.

(** X14 (the deep-clean fallback in the handler): when [json.dumps] raises
    a [ValueError] or a [TypeError] on the cleaned tree, whichever dump it
    came from, the answer is a 200 whose body is [deep_clean] of the
    cleaned tree: it has a JSON text, no null entry at any depth and no
    non-finite float. *)
Theorem json_refusal_is_deep_cleaned (p : gmap string pyval) (i : Inputs)
    (r : Result) (s s' : string) (dumped : pyval) (e : exn) :
  FinancialInputs (normalize p) = Ok i →
  inputs_log i = Ok s →
  engine_calculate i = Ok r →
  result_log r = Ok s' →
  (model_dump_json r = Ok dumped ∨
   ((∃ e0, model_dump_json r = Raise e0) ∧ model_dump r = Ok dumped)) →
  json_dumps (clean_nan dumped) = Raise e →
  is_value_or_type_error e = true →
  status (calc p).2 = 200%Z ∧
  content (calc p).2 = deep_clean (clean_nan dumped) ∧
  json_safe (content (calc p).2) = true ∧
  has_null_entry (content (calc p).2) = false ∧
  has_nan (content (calc p).2) = false.
Proof.
  intros Hi Hs Hr Hs' Hd He Hc. unfold calculate.
  destruct (serialize_from_dumps r dumped Hd) as [t Ht].
  rewrite (try_block_after_dump p i r s s' t dumped Hi Hs Hr Hs' Ht).
  rewrite (sanitize_refused dumped e He Hc). simpl.
  split; [done|]. split; [done|]. split; [apply json_safe_deep_clean|].
  split; [|apply has_nan_deep_clean].
  by rewrite has_null_entry_deep_clean, has_nan_clean_nan.
Qed.

(** The events of an answer are those of the [try] block. *)
Lemma calculate_trace (p : gmap string pyval) : (calc p).1 = (try_block p).1.
Proof.
  unfold calculate. destruct (try_block p) as [t [v|[m errs|c n m]]]; simpl;
    try destruct (render _); done.
Qed.

(** X15 (the order of the calls): every run calls the validating
    constructor first and once; the engine only after it returned; the
    default dump only after the JSON-mode dump, and [json.dumps] last; no
    collaborator is called twice.  The calls of a run are one of five
    sequences. *)
Theorem calls_in_order (p : gmap string pyval) :
  calls (calc p).1 ∈
    [ [CallFinancialInputs];
      [CallFinancialInputs; CallEngine];
      [CallFinancialInputs; CallEngine; CallModelDumpJson; CallJsonDumps];
      [CallFinancialInputs; CallEngine; CallModelDumpJson; CallModelDump];
      [CallFinancialInputs; CallEngine; CallModelDumpJson; CallModelDump;
       CallJsonDumps] ].
Proof.
  rewrite calculate_trace.
  unfold calculate_try, serialize, sanitize, invoke, lift, try_except.
  destruct (FinancialInputs (normalize p)) as [i|e]; simpl;
    [|apply list_elem_of_In; simpl; tauto].
  destruct (inputs_log i) as [s|e]; simpl; [|apply list_elem_of_In; simpl; tauto].
  destruct (engine_calculate i) as [r|e]; simpl; [|apply list_elem_of_In; simpl; tauto].
  destruct (result_log r) as [s'|e]; simpl; [|apply list_elem_of_In; simpl; tauto].
  destruct (model_dump_json r) as [dumped|e]; simpl.
  - rewrite !has_nan_clean_nan.
    destruct (json_dumps (clean_nan dumped)) as [js|e]; simpl.
    + destruct (py_keys (clean_nan dumped)) as [ks|e]; simpl;
        [apply list_elem_of_In; simpl; tauto|].
      destruct (is_value_or_type_error e); simpl; apply list_elem_of_In; simpl; tauto.
    + destruct (is_value_or_type_error e); simpl; apply list_elem_of_In; simpl; tauto.
  - destruct (model_dump r) as [dumped|e']; simpl;
      [|apply list_elem_of_In; simpl; tauto].
    rewrite !has_nan_clean_nan.
    destruct (json_dumps (clean_nan dumped)) as [js|e']; simpl.
    + destruct (py_keys (clean_nan dumped)) as [ks|e']; simpl;
        [apply list_elem_of_In; simpl; tauto|].
      destruct (is_value_or_type_error e'); simpl; apply list_elem_of_In; simpl; tauto.
    + destruct (is_value_or_type_error e'); simpl; apply list_elem_of_In; simpl; tauto.
Qed.

End CalculatePaths.

(** The further properties of the handler on the scenarios. *)

Lemma ok_body_has_no_nan_witness :
  has_nan (content (calculate _ _ demo_validator demo_engine demo_dump demo_dump
                      demo_json_dumps demo_log demo_log demo_format_exc strict_render
                      scenario1).2) = false ∧
  ¬ nonfinite_inside
      (content (calculate _ _ demo_validator demo_engine demo_dump demo_dump
                  demo_json_dumps demo_log demo_log demo_format_exc strict_render
                  scenario1).2).
Proof.
  apply (ok_body_has_no_nan demo_validator demo_engine demo_dump demo_dump
           demo_json_dumps demo_log demo_log demo_format_exc strict_render scenario1).
  reflexivity.
Defined.

Lemma null_field_is_absent_field_witness :
  calculate _ _ demo_validator demo_engine demo_dump demo_dump
    demo_json_dumps demo_log demo_log demo_format_exc strict_render
    (<["kWp" := PStr "undefined"]> scenario2) =
  calculate _ _ demo_validator demo_engine demo_dump demo_dump
    demo_json_dumps demo_log demo_log demo_format_exc strict_render
    (delete "kWp" scenario2).
Proof.
  apply (null_field_is_absent_field demo_validator demo_engine demo_dump
           demo_dump demo_json_dumps demo_log demo_log demo_format_exc strict_render).
  reflexivity.
Defined.

Lemma engine_validation_error_is_422_witness :
  calculate _ _ demo_validator validating_engine demo_dump demo_dump
    demo_json_dumps demo_log demo_log demo_format_exc strict_render scenario1 =
  ([Called CallFinancialInputs; Called CallEngine],
   Response 422
     (PDict {[ "error" := PStr "ValidationError";
               "message" := PStr "validation error for Result";
               "details" := PList [missing_entry "kpis"] ]})
     cors_headers).
Proof.
  apply (engine_validation_error_is_422 demo_validator validating_engine
           demo_dump demo_dump demo_json_dumps demo_log demo_log
           demo_format_exc strict_render scenario1 (normalize scenario1) ""
           "validation error for Result" "..." [missing_entry "kpis"]);
    reflexivity.
Defined.

Lemma non_dict_dump_is_500_witness :
  (calculate _ _ demo_validator demo_engine failing_dump_json list_dump
     demo_json_dumps demo_log demo_log demo_format_exc strict_render
     scenario1).2 =
  Response 500
    (PDict {[ "error" := PStr "InternalError";
              "message" := PStr "'list' object has no attribute 'keys'";
              "traceback" :=
                PStr (demo_format_exc
                        (AttributeError "'list' object has no attribute 'keys'")) ]})
    cors_headers.
Proof.
  apply (non_dict_dump_is_500 demo_validator demo_engine failing_dump_json
           list_dump demo_json_dumps demo_log demo_log demo_format_exc
           strict_render scenario1 (normalize scenario1) nan_result "" "" "..."
           "list" (PList [PFloat nan; PInt 1]));
    try reflexivity.
  - right. split; [by eexists|reflexivity].
  - discriminate.
Defined.

Lemma normal_path_body_witness :
  calculate _ _ demo_validator demo_engine demo_dump demo_dump
    demo_json_dumps demo_log demo_log demo_format_exc strict_render scenario1 =
  ([Called CallFinancialInputs; Called CallEngine; Called CallModelDumpJson;
    Called CallJsonDumps],
   Response 200
     (PDict (clean_nan <$>
               {[ "kpis" := PDict {[ "van" := PFloat 1250.5; "tir" := PFloat nan ]};
                  "flows" := PList [PFloat infinity; PFloat neg_infinity; PInt 0] ]}))
     ∅).
Proof.
  apply (normal_path_body demo_validator demo_engine demo_dump demo_dump
           demo_json_dumps demo_log demo_log demo_format_exc strict_render scenario1
           (normalize scenario1) nan_result "" "" "...");
    reflexivity.
Defined.

Lemma dump_fallback_is_silent_witness :
  calculate _ _ demo_validator demo_engine failing_dump_json demo_dump
    demo_json_dumps demo_log demo_log demo_format_exc strict_render scenario1 =
  ([Called CallFinancialInputs; Called CallEngine; Called CallModelDumpJson;
    Caught SerializationError; Called CallModelDump; Called CallJsonDumps],
   Response 200
     (PDict (clean_nan <$>
               {[ "kpis" := PDict {[ "van" := PFloat 1250.5; "tir" := PFloat nan ]};
                  "flows" := PList [PFloat infinity; PFloat neg_infinity; PInt 0] ]}))
     ∅).
Proof.
  apply (dump_fallback_is_silent demo_validator demo_engine failing_dump_json
           demo_dump demo_json_dumps demo_log demo_log demo_format_exc strict_render scenario1
           (normalize scenario1) nan_result "" "" "...");
    reflexivity.
Defined.

Lemma json_refusal_is_deep_cleaned_witness :
  let answer := calculate _ _ demo_validator dated_engine failing_dump_json
                  demo_dump demo_json_dumps demo_log demo_log demo_format_exc
                  strict_render scenario1 in
  status answer.2 = 200%Z ∧
  content answer.2 = deep_clean (clean_nan dated_result) ∧
  json_safe (content answer.2) = true ∧
  has_null_entry (content answer.2) = false ∧
  has_nan (content answer.2) = false.
Proof.
  apply (json_refusal_is_deep_cleaned demo_validator dated_engine
           failing_dump_json demo_dump demo_json_dumps demo_log demo_log
           demo_format_exc strict_render scenario1
           (normalize scenario1) dated_result "" "" dated_result
           (TypeError "Object is not JSON serializable"));
    try reflexivity.
  right. split; [by eexists|reflexivity].
Defined.

(** * The configuration *)

Lemma truthy_py_or (a b : pyval) : truthy (py_or a b) = truthy a || truthy b.
Proof. unfold py_or. by destruct (truthy a) eqn:Ha. Qed.

Lemma truthy_getenv (env : gmap string string) (name : string) :
  truthy (getenv env name) = true ↔ ∃ s, env !! name = Some s ∧ s ≠ "".
Proof.
  unfold getenv. destruct (env !! name) as [s|]; simpl.
  - rewrite negb_true_iff, bool_decide_eq_false. split.
    + intros Hs. by exists s.
    + by intros (s' & [= <-] & Hs).
  - split; [done|]. by intros (s & ? & _).
Qed.

Lemma is_production_spec (env : gmap string string) :
  truthy (is_production env) = true ↔ production_env env.
Proof.
  unfold is_production, production_env.
  rewrite !truthy_py_or, !orb_true_iff, !truthy_getenv. simpl. split.
  - intros [HE|[HR|[HW|HK]]].
    + left. unfold getenv in HE. destruct (env !! "ENVIRONMENT") as [s|]; [|done].
      simpl in HE. by apply bool_decide_eq_true in HE as ->.
    + right. destruct HR as (s & ? & ?). exists "RENDER", s.
      split; [|done]. apply list_elem_of_In. simpl. tauto.
    + right. destruct HW as (s & ? & ?). exists "RAILWAY_ENVIRONMENT", s.
      split; [|done]. apply list_elem_of_In. simpl. tauto.
    + right. destruct HK as (s & ? & ?). exists "K_SERVICE", s.
      split; [|done]. apply list_elem_of_In. simpl. tauto.
  - intros [HE|(name & s & Hin & Hs & Hne)].
    + left. unfold getenv. by rewrite HE.
    + right. apply list_elem_of_In in Hin. simpl in Hin.
      destruct Hin as [<-|[<-|[<-|[]]]]; eauto.
Qed.

(** X16 (production mode): the middleware gets the production origin and
    the preview pattern exactly when [ENVIRONMENT] is ["production"] or one
    of [RENDER], [RAILWAY_ENVIRONMENT], [K_SERVICE] is set to a non-empty
    string, and the two local origins with no pattern otherwise; an empty
    value or another spelling of ["production"] does not count.
    Credentials are never allowed. *)
Theorem production_detection (env : gmap string string) :
  (production_env env →
   cors_middleware env =
     CorsConfig ["https://cotizador-voltaic.vercel.app"]
       (Some "https://.*\.vercel\.app$") false
       ["GET"; "POST"; "OPTIONS"] ["*"] ["*"]) ∧
  (¬ production_env env →
   cors_middleware env =
     CorsConfig ["http://localhost:3000"; "http://127.0.0.1:3000"] None false
       ["GET"; "POST"; "OPTIONS"] ["*"] ["*"]).
Proof.
  unfold cors_middleware, allowed_origins, allow_origin_regex. split.
  - intros H. apply is_production_spec in H. by rewrite H.
  - intros H. rewrite <- is_production_spec in H.
    apply not_true_is_false in H. by rewrite H.
Qed.

Lemma production_detection_witness :
  allow_origins (cors_middleware env_cloud_run) =
    ["https://cotizador-voltaic.vercel.app"] ∧
  allow_origins (cors_middleware env_render_empty) =
    ["http://localhost:3000"; "http://127.0.0.1:3000"].
Proof.
  split.
  - rewrite (proj1 (production_detection env_cloud_run)); [reflexivity|].
    right. exists "K_SERVICE", "financial-engine".
    split; [apply list_elem_of_In; simpl; tauto|]. split; [reflexivity|discriminate].
  - rewrite (proj2 (production_detection env_render_empty)); [reflexivity|].
    intros [HE|(name & s & Hin & Hs & Hne)].
    + vm_compute in HE. discriminate.
    + apply list_elem_of_In in Hin. simpl in Hin.
      destruct Hin as [<-|[<-|[<-|[]]]]; vm_compute in Hs;
        [injection Hs as <-; by destruct Hne|discriminate..].
Defined.

(** * The depth of the recursion *)

Lemma foldr_max_le {A} (g : A → nat) (l : list A) (b : nat) :
  (foldr (λ v acc, g v `max` acc) 0 l ≤ b)%nat ↔ Forall (λ v, (g v ≤ b)%nat) l.
Proof.
  induction l as [|x l IH]; simpl.
  - split; [constructor|lia].
  - rewrite Nat.max_lub_iff, IH. split.
    + intros [??]. by constructor.
    + by inversion 1.
Qed.

Lemma map_fold_max_le {A} (g : A → nat) (d : gmap string A) (b : nat) :
  (map_fold (λ _ v acc, g v `max` acc) 0 d ≤ b)%nat ↔
  map_Forall (λ _ v, (g v ≤ b)%nat) d.
Proof.
  apply (map_fold_weak_ind
           (λ r m, (r ≤ b)%nat ↔ map_Forall (λ _ v, (g v ≤ b)%nat) m)).
  - split; [intros _; apply map_Forall_empty|lia].
  - intros i x m r Hi IH.
    rewrite Nat.max_lub_iff, IH, map_Forall_insert by done. done.
Qed.

(** A comprehension in which every element returns or raises [e], and one
    raises [e], raises [e]. *)
Lemma mapM_Raise {A B} (f : A → outcome B) (e : exn) (l : list A) :
  Forall (λ x, (∃ y, f x = Ok y) ∨ f x = Raise e) l →
  Exists (λ x, f x = Raise e) l →
  mapM f l = Raise e.
Proof.
  induction 1 as [|x l Hx _ IH]; intros Hex; [by inversion Hex|].
  simpl. destruct Hx as [[y Hy]|Hx].
  - rewrite Hy. simpl.
    inversion Hex as [x0 l0 Hx0|x0 l0 Hl0]; subst; [congruence|].
    change (mapM f l ≫= (λ k, mret (y :: k)) = Raise e).
    by rewrite (IH Hl0).
  - by rewrite Hx.
Qed.

Lemma filter_items_all (items : list (string * pyval)) :
  filter (λ kv : string * pyval, (λ _ : pyval, true) kv.2) items = items.
Proof.
  induction items as [|x l IH]; [done|]. by rewrite filter_cons_True, IH.
Qed.

(** Within [fuel] nested calls [clean_nan] returns if the tree needs no
    more than that, and ends in [RecursionError] otherwise. *)
Lemma clean_nan_run_exact (obj : pyval) (fuel : nat) :
  clean_nan_run fuel obj =
  if decide (call_depth obj ≤ fuel)%nat then Ok (clean_nan obj)
  else Raise RecursionError.
Proof.
  revert fuel.
  induction obj as [| | |f| |l IH|d IH|] using pyval_ind;
    intros [|n]; try done.
  - apply float_branch_Ok.
  - change (list_comp (clean_nan_run n) (λ _, true) l =
            if decide (call_depth (PList l) ≤ S n)%nat
            then Ok (clean_nan (PList l)) else Raise RecursionError).
    rewrite Forall_forall in IH.
    destruct (decide (Forall (λ v, (call_depth v ≤ n)%nat) l)) as [Hall|Hno].
    + rewrite decide_True by (simpl; apply le_n_S; by apply foldr_max_le).
      rewrite (list_comp_Ok _ clean_nan), filter_all; [done|].
      intros v Hv _. rewrite (IH v Hv n), decide_True; [done|].
      rewrite Forall_forall in Hall. by apply Hall.
    + rewrite decide_False.
      2:{ simpl. intros Hle. apply Hno, foldr_max_le. lia. }
      unfold list_comp. rewrite filter_all, (mapM_Raise _ RecursionError); [done| |].
      * apply Forall_forall. intros v Hv. rewrite (IH v Hv n).
        case_decide; [left; by eexists|by right].
      * apply not_Forall_Exists in Hno; [|apply _].
        apply Exists_exists in Hno as (v & Hv & Hd). apply Exists_exists.
        exists v. split; [done|]. rewrite (IH v Hv n). by rewrite decide_False.
  - change (dict_comp (clean_nan_run n) (λ _, true) (map_to_list d) =
            if decide (call_depth (PDict d) ≤ S n)%nat
            then Ok (clean_nan (PDict d)) else Raise RecursionError).
    destruct (decide (map_Forall (λ _ v, (call_depth v ≤ n)%nat) d)) as [Hall|Hno].
    + rewrite decide_True by (simpl; apply le_n_S; by apply map_fold_max_le).
      rewrite (dict_comp_Ok _ clean_nan), filter_dict_all; [done|].
      intros k v Hk _. rewrite (IH k v Hk n), decide_True; [done|].
      by apply (Hall k v).
    + rewrite decide_False.
      2:{ simpl. intros Hle. apply Hno, map_fold_max_le. lia. }
      unfold dict_comp.
      rewrite filter_items_all, (mapM_Raise _ RecursionError); [done| |].
      * apply Forall_forall. intros [k v] Hkv%elem_of_map_to_list. simpl.
        rewrite (IH k v Hkv n). case_decide; [left; by eexists|by right].
      * apply map_not_Forall in Hno as (k & v & Hk & Hd); [|apply _].
        apply Exists_exists. exists (k, v).
        split; [by apply elem_of_map_to_list|]. simpl.
        rewrite (IH k v Hk n). by rewrite decide_False.
Qed.

(** X17 (the depth [clean_nan] needs): run with at most [fuel] nested
    calls, [clean_nan] returns its result exactly when the tree needs no
    more than [fuel] nested calls (one for a leaf, one more for each level
    of list or dict around it); on a deeper tree it ends in
    [RecursionError], whatever the rest of the tree holds. *)
Theorem clean_nan_recursion_depth (t : pyval) (fuel : nat) :
  (clean_nan_run fuel t = Ok (clean_nan t) ↔ (call_depth t ≤ fuel)%nat) ∧
  (clean_nan_run fuel t = Raise RecursionError ↔ (fuel < call_depth t)%nat).
Proof.
  rewrite clean_nan_run_exact. case_decide as Hd.
  - split; [split; done|]. split; [discriminate|lia].
  - split; [split; [discriminate|by intros ?]|]. split; [lia|done].
Qed.

(** * [has_nan] returns *)

Lemma py_any_Ok (f : pyval → outcome bool) (g : pyval → bool) (l : list pyval) :
  Forall (λ x, f x = Ok (g x)) l → py_any f l = Ok (existsb g l).
Proof.
  induction 1 as [|x l Hx _ IH]; [done|]. simpl. rewrite Hx. simpl.
  destruct (g x); [done|exact IH].
Qed.

Lemma existsb_values {A} (g : A → bool) (d : gmap string A) :
  existsb g (map_to_list d).*2 = map_fold (λ _ v acc, g v || acc) false d.
Proof.
  apply eq_true_iff_eq. rewrite existsb_exists, map_fold_orb. split.
  - intros (v & Hin & Hv). apply list_elem_of_In, list_elem_of_fmap in Hin.
    destruct Hin as ([k v'] & -> & Hkv). apply elem_of_map_to_list in Hkv.
    by exists k, v'.
  - intros (k & v & Hk & Hv). exists v. split; [|done].
    apply list_elem_of_In, list_elem_of_fmap. exists (k, v).
    split; [done|]. by apply elem_of_map_to_list.
Qed.

(** X18 ([has_nan] never raises): run statement by statement, with
    [values()], the iteration and the [math] calls able to raise, and
    [any] stopping at the first true value, [has_nan] returns on every
    tree what the function [has_nan] computes, as soon as the depth allowed
    for the recursion covers the tree. *)
Theorem has_nan_never_raises (t : pyval) (extra : nat) :
  has_nan_run (size t + extra) t = Ok (has_nan t).
Proof.
  assert (H : ∀ obj fuel, (size obj ≤ fuel)%nat →
                has_nan_run fuel obj = Ok (has_nan obj)); [|apply H; lia].
  clear t extra.
  induction obj as [| | |f| |l IH|d IH|] using pyval_ind;
    intros [|n] Hn; try (simpl in Hn; lia); try done.
  - change (has_nan_body (has_nan_run n) (PFloat f) = Ok (nonfinite f)).
    unfold has_nan_body, nonfinite. simpl.
    destruct (PrimFloat.is_nan f); simpl; [done|].
    by destruct (PrimFloat.is_infinity f).
  - change (py_any (has_nan_run n) l = Ok (has_nan (PList l))).
    rewrite (py_any_Ok _ has_nan); [reflexivity|].
    apply Forall_forall. intros v Hv. rewrite Forall_forall in IH.
    apply IH; [done|]. apply size_list_elem in Hv. lia.
  - change (py_any (has_nan_run n) (map_to_list d).*2 = Ok (has_nan (PDict d))).
    rewrite (py_any_Ok _ has_nan); [rewrite existsb_values; reflexivity|].
    apply Forall_forall. intros v Hv. apply list_elem_of_fmap in Hv.
    destruct Hv as ([k v'] & -> & Hkv). apply elem_of_map_to_list in Hkv.
    apply (IH k v' Hkv). apply size_dict_elem in Hkv. simpl in *. lia.
Qed.

(** * Where the body of a 200 comes from *)

Section CalculateOk.

Context {Inputs Result : Type}.
Context (FinancialInputs : gmap string pyval → outcome Inputs).
Context (engine_calculate : Inputs → outcome Result).
Context (model_dump_json model_dump : Result → outcome pyval).
Context (json_dumps : pyval → outcome string).
Context (inputs_log : Inputs → outcome string).
Context (result_log : Result → outcome string).
Context (format_exc : exn → string).
Context (render : pyval → outcome string).

Local Abbreviation try_block :=
  (calculate_try Inputs Result FinancialInputs engine_calculate
     model_dump_json model_dump json_dumps inputs_log result_log).
Local Abbreviation calc :=
  (calculate Inputs Result FinancialInputs engine_calculate
     model_dump_json model_dump json_dumps inputs_log result_log format_exc
     render).

Lemma serialize_Ok (r : Result) (t : list event) (dumped : pyval) :
  serialize Result model_dump_json model_dump r = (t, Ok dumped) →
  model_dump_json r = Ok dumped ∨
  ((∃ e, model_dump_json r = Raise e) ∧ model_dump r = Ok dumped).
Proof.
  unfold serialize, invoke, try_except.
  destruct (model_dump_json r) as [v|e]; simpl.
  - intros [= _ <-]. by left.
  - destruct (model_dump r) as [v|e']; simpl; intros [= _ <-].
    right. split; [by exists e|done].
Qed.

Lemma sanitize_Ok (dumped : pyval) (t : list event) (v : pyval) :
  sanitize json_dumps dumped = (t, Ok v) →
  v = clean_nan dumped ∨ v = deep_clean (clean_nan dumped).
Proof.
  unfold sanitize, invoke, lift, try_except. rewrite has_nan_clean_nan. simpl.
  destruct (json_dumps (clean_nan dumped)) as [js|e]; simpl.
  - destruct (py_keys (clean_nan dumped)) as [ks|e]; simpl.
    + intros [= _ <-]. by left.
    + destruct (is_value_or_type_error e); [|done]. intros [= _ <-]. by right.
  - destruct (is_value_or_type_error e); [|done]. intros [= _ <-]. by right.
Qed.

(** X19 (where a 200 comes from): an answer with status 200 is only given
    when the validating constructor and the engine both returned; its body
    is a dump of the engine's result (the JSON-mode dump, or the default
    dump when the JSON-mode dump raised) cleaned by [clean_nan], or by
    [clean_nan] and then [deep_clean]. *)
Theorem ok_body_origin (p : gmap string pyval) :
  status (calc p).2 = 200%Z →
  ∃ i r dumped,
    FinancialInputs (normalize p) = Ok i ∧
    engine_calculate i = Ok r ∧
    (model_dump_json r = Ok dumped ∨
     ((∃ e, model_dump_json r = Raise e) ∧ model_dump r = Ok dumped)) ∧
    (content (calc p).2 = clean_nan dumped ∨
     content (calc p).2 = deep_clean (clean_nan dumped)).
Proof.
  unfold calculate.
  destruct (try_block p) as [t [v|[m errs|c n m]]] eqn:Htry; simpl;
    [|by destruct (render _)|done].
  intros _. unfold calculate_try in Htry.
  apply handler_bind_Ok in Htry as (t1 & i & t2 & Hi & Htry & _).
  apply handler_bind_Ok in Htry as (t3 & s & t4 & _ & Htry & _).
  apply handler_bind_Ok in Htry as (t5 & r & t6 & Hr & Htry & _).
  apply handler_bind_Ok in Htry as (t7 & s' & t8 & _ & Htry & _).
  apply handler_bind_Ok in Htry as (t9 & dumped & t10 & Hd & Hsan & _).
  unfold invoke in Hi, Hr. injection Hi as _ Hi. injection Hr as _ Hr.
  exists i, r, dumped. split; [done|]. split; [done|].
  split; [by eapply serialize_Ok|by eapply sanitize_Ok].
Qed.

End CalculateOk.

Lemma ok_body_origin_witness :
  ∃ i r dumped,
    demo_validator (normalize scenario1) = Ok i ∧
    demo_engine i = Ok r ∧
    (failing_dump_json r = Ok dumped ∨
     ((∃ e, failing_dump_json r = Raise e) ∧ demo_dump r = Ok dumped)) ∧
    (content (calculate _ _ demo_validator demo_engine failing_dump_json
                demo_dump demo_json_dumps demo_log demo_log demo_format_exc strict_render
                scenario1).2 = clean_nan dumped ∨
     content (calculate _ _ demo_validator demo_engine failing_dump_json
                demo_dump demo_json_dumps demo_log demo_log demo_format_exc strict_render
                scenario1).2 = deep_clean (clean_nan dumped)).
Proof.
  apply (ok_body_origin demo_validator demo_engine failing_dump_json demo_dump
           demo_json_dumps demo_log demo_log demo_format_exc strict_render scenario1).
  reflexivity.
Defined.
